(** * CoreXY kinematics for an axis triplet (klippy/kinematics/corexy_abc.py)

    A shallow embedding of [CoreXYKinematicsABC] and the properties its
    specification states about it.

    Numbers are Python floats, i.e. IEEE 754 binary64: they are embedded as
    Rocq's primitive floats, whose operations are the same binary64
    operations.  Python lists are lists, with an [IndexError] written out
    where the source indexes out of range; the dictionary of rail positions
    is a [gmap]; exceptions are the [Raise] case of [result]. *)

From Stdlib Require Import Floats Ascii.
From stdpp Require Import base option list strings pretty gmap.

Local Open Scope string_scope.
Local Open Scope list_scope.

(** ** Python values and exceptions *)

(** Truth value of a float, as [if x:] / [not x] take it: every float but
    [0.0] and [-0.0] is true (a NaN is true). *)
Definition truthy (x : float) : bool := negb (x =? 0)%float.

(** [x > y] on floats. *)
Definition gtb (x y : float) : bool := (y <? x)%float.

(** [min(a, b)] of two floats: Python returns [b] when [b < a], else [a]. *)
Definition py_min (a b : float) : float := if (b <? a)%float then b else a.

(** The exceptions the module raises or lets through. *)
Inductive exn : Type :=
  | Exception (msg : string)
      (* [raise Exception(msg)] of the constructor *)
  | IndexError
      (* [l[i]] or [l[i] = v] with [i] out of range *)
  | ValueError
      (* unpacking a sequence of the wrong length *)
  | KeyError (key : string)
      (* [d[key]] with [key] absent *)
  | ConfigError (what : string)
      (* raised by the configuration collaborator *)
  | TypeError
      (* an operand or argument list of the wrong shape *)
  | ZeroDivisionError
      (* [x / y] with [y] zero *)
  | MoveError (msg : option string)
      (* [move.move_error(msg)]; [None] is the call with no argument, which
         leaves the reason to the collaborator's generic default *)
  | HomingFailure.
      (* raised by the homing-execution collaborator *)

Inductive result (A : Type) : Type :=
  | Ok (a : A)
  | Raise (e : exn).
Arguments Ok {A} a.
Arguments Raise {A} e.

#[global] Instance result_ret : MRet result := @Ok.
#[global] Instance result_bind : MBind result := fun A B f r =>
  match r with
  | Ok a => f a
  | Raise e => Raise e
  end.

(** [x / y] on floats: Python raises on a zero divisor, and divides as
    binary64 does otherwise. *)
Definition truediv (x y : float) : result float :=
  if (y =? 0)%float then Raise ZeroDivisionError else Ok (x / y)%float.

(** [l[i]] *)
Definition index {A} (l : list A) (i : nat) : result A :=
  match l !! i with
  | Some a => Ok a
  | None => Raise IndexError
  end.

(** [l[i] = v] *)
Definition assign {A} (l : list A) (i : nat) (v : A) : result (list A) :=
  if decide (i < length l) then Ok (<[i := v]> l) else Raise IndexError.

(** [a, b = l] *)
Definition unpack2 {A} (l : list A) : result (A * A) :=
  match l with
  | [a; b] => Ok (a, b)
  | _ => Raise ValueError
  end.

(** [for x in l: body(x)], stopping at the first exception. *)
Fixpoint for_each {A} (l : list A) (body : A -> result unit) : result unit :=
  match l with
  | [] => Ok tt
  | x :: l' => body x ≫= fun _ => for_each l' body
  end.

(** ** Data model *)

(** The homing metadata of a rail that [home] reads. *)
Record HomingInfo : Type := {
  position_endstop : float;
  positive_dir : bool;
}.

(** A rail ([stepper.PrinterRail]), as far as the module reads and writes it:
    its name, travel range, homing metadata, steppers (by name), endstops
    (an endstop handle and its name), the solver binding set by
    [setup_itersolve] and the position last pushed by [set_position]. *)
Record Rail : Type := {
  get_name : string;
  get_range : float * float;
  get_homing_info : HomingInfo;
  rail_get_steppers : list string;
  get_endstops : list (nat * string);
  solver : option (string * string);
  position : option (list float);
}.

Definition setup_itersolve (alloc tag : string) (r : Rail) : Rail :=
  {| get_name := get_name r; get_range := get_range r;
     get_homing_info := get_homing_info r;
     rail_get_steppers := rail_get_steppers r; get_endstops := get_endstops r;
     solver := Some (alloc, tag); position := position r |}.

Definition rail_set_position (newpos : list float) (r : Rail) : Rail :=
  {| get_name := get_name r; get_range := get_range r;
     get_homing_info := get_homing_info r;
     rail_get_steppers := rail_get_steppers r; get_endstops := get_endstops r;
     solver := solver r; position := Some newpos |}.

(** [toolhead.Coord(x, y, z, e=0.)] *)
Record Coord : Type := { cx : float; cy : float; cz : float; ce : float }.

(** A move, as far as [check_move] reads it, and its two caps. *)
Record Move : Type := {
  end_pos : list float;
  axes_d : list float;
  move_d : float;
  velocity_cap : float;
  accel_cap : float;
}.

(** Modelled from the spec: [Move.limit_speed], which lives in the motion
    planner.  The spec has the move capped to at most the requested values,
    a minimum-of operation on the move's own caps. *)
Definition limit_speed (m : Move) (speed accel : float) : Move :=
  {| end_pos := end_pos m; axes_d := axes_d m; move_d := move_d m;
     velocity_cap := py_min (velocity_cap m) speed;
     accel_cap := py_min (accel_cap m) accel |}.

(** The attributes of a [CoreXYKinematicsABC] object. *)
Record Kinematics : Type := {
  axis_config : list nat;
  axis_names : string;
  axis_count : nat;
  axis : list nat;
  dummy_axes : list nat;
  dummy_axes_names : list string;
  toolhead_axis_count : nat;
  trapq : nat;
  rails : list Rail;
  max_z_velocity : float;
  max_z_accel : float;
  limits : list (float * float);
  axes_min : Coord;
  axes_max : Coord;
}.

Definition set_limits (k : Kinematics) (l : list (float * float)) : Kinematics :=
  {| axis_config := axis_config k; axis_names := axis_names k;
     axis_count := axis_count k; axis := axis k;
     dummy_axes := dummy_axes k; dummy_axes_names := dummy_axes_names k;
     toolhead_axis_count := toolhead_axis_count k; trapq := trapq k;
     rails := rails k;
     max_z_velocity := max_z_velocity k; max_z_accel := max_z_accel k;
     limits := l; axes_min := axes_min k; axes_max := axes_max k |}.

Definition set_rails (k : Kinematics) (rs : list Rail) : Kinematics :=
  {| axis_config := axis_config k; axis_names := axis_names k;
     axis_count := axis_count k; axis := axis k;
     dummy_axes := dummy_axes k; dummy_axes_names := dummy_axes_names k;
     toolhead_axis_count := toolhead_axis_count k; trapq := trapq k;
     rails := rs;
     max_z_velocity := max_z_velocity k; max_z_accel := max_z_accel k;
     limits := limits k; axes_min := axes_min k; axes_max := axes_max k |}.

(** ** Limits *)

(** The unhomed sentinel. *)
Definition sentinel : float * float := (1.0, -1.0)%float.

(** [self.limits = [(1.0, -1.0)] * 3] *)
Definition reset_limits (k : Kinematics) : Kinematics :=
  set_limits k (replicate 3 sentinel).

Definition _motor_off (k : Kinematics) (print_time : float) : Kinematics :=
  reset_limits k.

Definition note_z_not_homed (k : Kinematics) : result Kinematics :=
  l ← assign (limits k) 2 sentinel; Ok (set_limits k l).

(** ** Move validation *)

(** [x] lies outside the interval [lim], as the source tests it. *)
Definition outside (x : float) (lim : float * float) : bool :=
  (x <? lim.1)%float || gtb x lim.2.

(** The limit is in the unhomed state, [low > high]. *)
Definition unhomed (lim : float * float) : bool := gtb lim.1 lim.2.

Definition must_home : exn := MoveError (Some "Must home axis first").
Definition out_of_range : exn := MoveError None.

Definition _check_endstops (k : Kinematics) (move : Move) : result unit :=
  let end_pos := end_pos move in
  for_each [0; 1; 2] (fun i =>
    d ← index (axes_d move) i;
    if truthy d then
      e ← index end_pos i;
      lim ← index (limits k) i;
      if outside e lim then
        if unhomed lim then Raise must_home else Raise out_of_range
      else Ok tt
    else Ok tt).

Definition check_move (k : Kinematics) (move : Move) : result Move :=
  let limits := limits k in
  '(xpos, ypos) ← unpack2 (take 2 (end_pos move));
  l0 ← index limits 0;
  out ← (if outside xpos l0 then Ok true
         else l1 ← index limits 1; Ok (outside ypos l1));
  _ ← (if out : bool then _check_endstops k move else Ok tt);
  d2 ← index (axes_d move) 2;
  if negb (truthy d2) then
    (* Normal XY move - use defaults *)
    Ok move
  else
    (* Move with Z - update velocity and accel for slower Z axis *)
    _ ← _check_endstops k move;
    z_ratio ← truediv (move_d move) (abs d2);
    Ok (limit_speed move (max_z_velocity k * z_ratio)%float
                         (max_z_accel k * z_ratio)%float).

(** ** Forward kinematics *)

(** [[f(x) for x in l]] with an [f] that may raise. *)
Fixpoint comprehension {A B} (f : A -> result B) (l : list A) : result (list B) :=
  match l with
  | [] => Ok []
  | x :: l' => y ← f x; ys ← comprehension f l'; Ok (y :: ys)
  end.

(** [d[key]] *)
Definition getitem (d : gmap string float) (key : string) : result float :=
  match d !! key with
  | Some v => Ok v
  | None => Raise (KeyError key)
  end.

Definition calc_position (k : Kinematics) (stepper_positions : gmap string float)
  : result (list float) :=
  pos ← comprehension (fun rail => getitem stepper_positions (get_name rail))
                      (rails k);
  p0 ← index pos 0;
  p1 ← index pos 1;
  p2 ← index pos 2;
  Ok [0.5 * (p0 + p1); 0.5 * (p0 - p1); p2]%float.

(** ** Setting the position *)

(** The loop of [set_position], at rail number [i]: every rail gets the new
    position, and the rails whose number is in [homing_axes] give their range
    to the limit of that number. *)
Fixpoint set_position_from (i : nat) (rs : list Rail) (newpos : list float)
    (homing_axes : list nat) (lims : list (float * float))
  : result (list Rail * list (float * float)) :=
  match rs with
  | [] => Ok ([], lims)
  | rail :: rs' =>
      let rail := rail_set_position newpos rail in
      lims ← (if bool_decide (i ∈ homing_axes)
              then assign lims i (get_range rail) else Ok lims);
      '(rs', lims) ← set_position_from (S i) rs' newpos homing_axes lims;
      Ok (rail :: rs', lims)
  end.

Definition set_position (k : Kinematics) (newpos : list float)
    (homing_axes : list nat) : result Kinematics :=
  '(rs, lims) ← set_position_from 0 (rails k) newpos homing_axes (limits k);
  Ok (set_limits (set_rails k rs) lims).

(** ** Status *)

Record Status : Type := {
  homed_axes : string;
  axis_minimum : Coord;
  axis_maximum : Coord;
}.

(** [[a for a, (l, h) in zip(letters, limits) if l <= h]] *)
Definition homed_letters (letters : list ascii) (lims : list (float * float))
  : list ascii :=
  (filter (fun al => Is_true (al.2.1 <=? al.2.2)%float) (zip letters lims)).*1.

Definition get_status (k : Kinematics) (eventtime : float) : Status :=
  let axes := homed_letters (String.list_ascii_of_string "xyz") (limits k) in
  {| homed_axes := String.string_of_list_ascii axes;
     axis_minimum := axes_min k;
     axis_maximum := axes_max k |}.

(** ** Effects on the collaborators

    The constructor and [home] act on objects the module does not own (the
    endstops, the planner, the homing state).  What they do to them is a
    state, threaded through the calls; an exception leaves the state as it
    was when it was raised. *)

Definition M (S A : Type) : Type := S -> S * result A.

#[global] Instance M_ret {S} : MRet (M S) := fun A a s => (s, Ok a).
#[global] Instance M_bind {S} : MBind (M S) := fun A B f m s =>
  match m s with
  | (s', Ok a) => f a s'
  | (s', Raise e) => (s', Raise e)
  end.

(** A computation with no effect on the state. *)
Definition lift {S A} (r : result A) : M S A := fun s => (s, r).

(** [for x in l: body(x)] *)
Fixpoint for_eachM {S A} (l : list A) (body : A -> M S unit) : M S unit :=
  match l with
  | [] => mret tt
  | x :: l' => body x ≫= fun _ => for_eachM l' body
  end.

(** ** Homing *)

(** One call [homing_state.home_rails(rails, forcepos, homepos)]. *)
Record HomeCall : Type := {
  hc_rails : list Rail;
  hc_forcepos : list (option float);
  hc_homepos : list (option float);
}.

(** [l[i] -= v] and [l[i] += v] on a list whose slots may be [None]. *)
Definition aug_assign (op : float -> float -> float) (l : list (option float))
    (i : nat) (v : float) : result (list (option float)) :=
  x ← index l i;
  match x with
  | Some x => assign l i (Some (op x v))
  | None => Raise TypeError
  end.

Section Homing.

(** What [homing_state.home_rails] answers to a call: it returns, or it
    raises the homing failure of the execution collaborator. *)
Variable home_rails_outcome : HomeCall -> result unit.

(** The homing state records the calls it receives, in order. *)
Definition home_rails (c : HomeCall) : M (list HomeCall) unit :=
  fun calls => (calls ++ [c], home_rails_outcome c).

(** The body of the loop of [home]. *)
Definition home_axis (k : Kinematics) (axis : nat) : M (list HomeCall) unit :=
  rail ← lift (index (rails k) axis);
  (* Determine movement *)
  let '(position_min, position_max) := get_range rail in
  let hi := get_homing_info rail in
  let homepos := [None; None; None; None] in
  homepos ← lift (assign homepos axis (Some (position_endstop hi)));
  let forcepos := homepos in
  forcepos ← lift (
    if positive_dir hi then
      aug_assign PrimFloat.sub forcepos axis
        (1.5 * (position_endstop hi - position_min))%float
    else
      aug_assign PrimFloat.add forcepos axis
        (1.5 * (position_max - position_endstop hi))%float);
  (* Perform homing *)
  home_rails {| hc_rails := [rail]; hc_forcepos := forcepos;
                hc_homepos := homepos |}.

(** [home], on the axes [homing_state.get_axes()] returns. *)
Definition home (k : Kinematics) (get_axes : list nat) : M (list HomeCall) unit :=
  (* Each axis is homed independently and in order *)
  for_eachM get_axes (home_axis k).

End Homing.

(** ** Construction *)

(** The collaborators' objects the constructor acts on: for each endstop
    handle the steppers registered with it, for each stepper the trapq it is
    set to, the steppers whose step generator the planner has registered, and
    the events a handler is registered for. *)
Record World : Type := {
  endstop_steppers : gmap nat (list string);
  stepper_trapq : gmap string nat;
  step_generators : list string;
  event_handlers : list string;
}.

(** The steppers registered with endstop [e]. *)
Definition registered (w : World) (e : nat) : list string :=
  default [] (endstop_steppers w !! e).

(** Modelled from the spec: [add_stepper] of an endstop, which lives in the
    micro-controller interface.  The spec has the stepper registered against
    the endstop, unconditionally. *)
Definition add_stepper (e : nat) (s : string) : M World unit := fun w =>
  ({| endstop_steppers := <[e := registered w e ++ [s]]> (endstop_steppers w);
      stepper_trapq := stepper_trapq w;
      step_generators := step_generators w;
      event_handlers := event_handlers w |}, Ok tt).

(** One turn of the two loops of the constructor that register steppers,
    [self.rails[i].get_endstops()[0][0].add_stepper(s)]: stepper [s] is
    registered with the first endstop of rail number [i]. *)
Definition register_one (rs : list Rail) (i : nat) (s : string) : M World unit :=
  r ← lift (index rs i);
  e ← lift (index (get_endstops r) 0);
  add_stepper e.1 s.

(** The loop, [for s in ss], on the steppers [ss] of the other rail. *)
Definition register_with (rs : list Rail) (i : nat) (ss : list string)
  : M World unit :=
  for_eachM ss (register_one rs i).

Definition set_trapq (s : string) (tq : nat) : M World unit := fun w =>
  ({| endstop_steppers := endstop_steppers w;
      stepper_trapq := <[s := tq]> (stepper_trapq w);
      step_generators := step_generators w;
      event_handlers := event_handlers w |}, Ok tt).

Definition register_step_generator (s : string) : M World unit := fun w =>
  ({| endstop_steppers := endstop_steppers w;
      stepper_trapq := stepper_trapq w;
      step_generators := step_generators w ++ [s];
      event_handlers := event_handlers w |}, Ok tt).

Definition register_event_handler (event : string) : M World unit := fun w =>
  ({| endstop_steppers := endstop_steppers w;
      stepper_trapq := stepper_trapq w;
      step_generators := step_generators w;
      event_handlers := event_handlers w ++ [event] |}, Ok tt).

(** The planner, as far as the constructor reads it. *)
Record Toolhead : Type := {
  th_axis_count : nat;
  th_get_trapq : option string -> nat;
  th_get_max_velocity : float * float;
}.

(** The configuration, as far as the constructor reads it: the rails of the
    [stepper_?] sections, and the two optional settings. *)
Record Config : Type := {
  stepper_sections : gmap string Rail;
  opt_max_z_velocity : option float;
  opt_max_z_accel : option float;
}.

(** Modelled from the spec: [stepper.LookupMultiRail(config.getsection(name))],
    which looks up one rail per axis letter from the configuration. *)
Definition LookupMultiRail (config : Config) (name : string) : result Rail :=
  match stepper_sections config !! name with
  | Some r => Ok r
  | None => Raise (ConfigError name)
  end.

(** Modelled from the spec: [config.getfloat(option, default, above=,
    maxval=)], the setting or its default, constrained to [(above, maxval]]. *)
Definition getfloat (name : string) (setting : option float) (dflt : float)
    (above maxval : float) : result float :=
  let v := default dflt setting in
  if (v <=? above)%float || gtb v maxval then Raise (ConfigError name)
  else Ok v.

(** Modelled from the spec: [toolhead.Coord], called with the unpacked
    [values] and [e=0.]; the bounds always have 3 components. *)
Definition make_coord (values : list float) : result Coord :=
  match values with
  | [x; y; z] => Ok {| cx := x; cy := y; cz := z; ce := 0 |}
  | _ => Raise TypeError
  end.

(** [s.lower()], on ASCII letters. *)
Definition lower_ascii (c : ascii) : ascii :=
  let n := nat_of_ascii c in
  if (65 <=? n)%nat && (n <=? 90)%nat then ascii_of_nat (n + 32) else c.

Definition lower (s : string) : string :=
  String.string_of_list_ascii (lower_ascii <$> String.list_ascii_of_string s).

(** The characters of a string, each as a string. *)
Definition chars (s : string) : list string :=
  (fun c => String c EmptyString) <$> String.list_ascii_of_string s.

(** [str(t)] of a tuple of integers. *)
Definition str_tuple (t : list nat) : string :=
  match t with
  | [] => "()"
  | [a] => "(" +:+ pretty a +:+ ",)"
  | a :: t' => "(" +:+ pretty a +:+
               String.concat "" ((fun b => ", " +:+ pretty b) <$> t') +:+ ")"
  end.

(** The message of the constructor's exception. *)
Definition mismatch_msg (axis_config : list nat) (axis_names : string) : string :=
  let msg := "CartKinematicsABC: The amount of axis indexes in '"
             +:+ str_tuple axis_config +:+ "'" in
  msg +:+ (" does not match the count of axis names '" +:+ axis_names +:+ "'.").

(** [l[i].setup_itersolve(alloc, tag)] *)
Definition setup_rail (l : list Rail) (i : nat) (alloc tag : string)
  : result (list Rail) :=
  r ← index l i; assign l i (setup_itersolve alloc tag r).

(** [get_steppers], on the rails. *)
Definition steppers_of (rs : list Rail) : list string :=
  rs ≫= rail_get_steppers.

Definition get_steppers (k : Kinematics) : list string := steppers_of (rails k).

(** The constructor.  [trapq] is [None] when the caller passes no trapq.  The
    dummy axes are listed in ascending order; the order in which Python lists
    the elements of the set difference is not modelled, and nothing reads
    it. *)
Definition __init__ (toolhead : Toolhead) (config : Config) (trapq : option nat)
    (axes_ids : list nat) (axis_set_letters : string) : M World Kinematics :=
  (* Configured set of axes (indexes) and their letter IDs. *)
  let axis_config := axes_ids in
  let axis_names := axis_set_letters in
  let axis_count := String.length axis_names in
  (* Just to check *)
  _ ← lift (if decide (length axis_config ≠ axis_count)
            then Raise (Exception (mismatch_msg axis_config axis_names))
            else Ok tt);
  (* Infer the triplet from one of the axes *)
  a0 ← lift (index axes_ids 0);
  let triplet_number := Nat.div a0 3 in
  (* Full set of axes, forced to length 3 *)
  let axis := seq (3 * triplet_number) 3 in
  (* Which axes from the triplet will not have steppers configured *)
  let dummy_axes := list_difference axis axis_config in
  dummy_axes_names ← lift (comprehension (index (chars "XYZABCUVW")) dummy_axes);
  (* Total axis count from the toolhead *)
  let toolhead_axis_count := th_axis_count toolhead in
  let trapq := match trapq with
               | None => th_get_trapq toolhead (Some axis_names)
               | Some t => t
               end in
  (* Setup axis rails *)
  rails ← lift (comprehension
                  (fun n => LookupMultiRail config ("stepper_" +:+ n))
                  (chars (lower axis_names)));
  (* Register each stepper of a rail in the endstop of the other rail *)
  r1 ← lift (index rails 1);
  _ ← register_with rails 0 (rail_get_steppers r1);
  r0 ← lift (index rails 0);
  _ ← register_with rails 1 (rail_get_steppers r0);
  rails ← lift (setup_rail rails 0 "corexy_stepper_alloc" "+");
  rails ← lift (setup_rail rails 1 "corexy_stepper_alloc" "-");
  rails ← lift (setup_rail rails 2 "cartesian_stepper_alloc" "z");
  _ ← for_eachM (steppers_of rails) (fun s =>
        _ ← set_trapq s (th_get_trapq toolhead None);
        register_step_generator s);
  (* Register a handler for turning off the steppers *)
  _ ← register_event_handler "stepper_enable:motor_off";
  let '(max_velocity, max_accel) := th_get_max_velocity toolhead in
  max_z_velocity ← lift (getfloat "max_z_velocity" (opt_max_z_velocity config)
                           max_velocity 0 max_velocity);
  max_z_accel ← lift (getfloat "max_z_accel" (opt_max_z_accel config)
                        max_accel 0 max_accel);
  (* Setup boundary checks *)
  let ranges := get_range <$> rails in
  axes_min ← lift (make_coord (fst <$> ranges));
  axes_max ← lift (make_coord (snd <$> ranges));
  mret (reset_limits
          {| axis_config := axis_config; axis_names := axis_names;
             axis_count := axis_count; axis := axis;
             dummy_axes := dummy_axes; dummy_axes_names := dummy_axes_names;
             toolhead_axis_count := toolhead_axis_count; trapq := trapq;
             rails := rails;
             max_z_velocity := max_z_velocity; max_z_accel := max_z_accel;
             limits := []; axes_min := axes_min; axes_max := axes_max |}).

(** [load_kinematics], with its default axes. *)
Definition load_kinematics (toolhead : Toolhead) (config : Config)
    (trapq : option nat) (axes_ids : option (list nat))
    (axis_set_letters : option string) : M World Kinematics :=
  __init__ toolhead config trapq (default [0; 1; 2] axes_ids)
           (default "XYZ" axis_set_letters).

(** ** A sample machine *)

Module Sample.

Definition rail (name : string) (lo hi endstop : float) (dir : bool)
    (steppers : list string) (e : nat) : Rail :=
  {| get_name := name; get_range := (lo, hi);
     get_homing_info := {| position_endstop := endstop; positive_dir := dir |};
     rail_get_steppers := steppers; get_endstops := [(e, name)];
     solver := None; position := None |}.

Definition rail_a := rail "stepper_a" 0 200 0 false ["stepper_a"; "stepper_a1"] 10.
Definition rail_b := rail "stepper_b" 0 200 200 true ["stepper_b"] 11.
Definition rail_c := rail "stepper_c" (-5) 120 120 true ["stepper_c"] 12.

Definition config : Config :=
  {| stepper_sections :=
       <["stepper_a" := rail_a]> (<["stepper_b" := rail_b]>
         (<["stepper_c" := rail_c]> ∅));
     opt_max_z_velocity := Some 25%float;
     opt_max_z_accel := None |}.

Definition toolhead : Toolhead :=
  {| th_axis_count := 6; th_get_trapq := fun _ => 0;
     th_get_max_velocity := (300, 3000)%float |}.

Definition world : World :=
  {| endstop_steppers := ∅; stepper_trapq := ∅;
     step_generators := []; event_handlers := [] |}.

(** The object the constructor returns on the sample configuration. *)
Definition kin : Kinematics :=
  {| axis_config := [3; 4; 5]; axis_names := "ABC"; axis_count := 3;
     axis := [3; 4; 5]; dummy_axes := []; dummy_axes_names := [];
     toolhead_axis_count := 6; trapq := 0;
     rails := [setup_itersolve "corexy_stepper_alloc" "+" rail_a;
               setup_itersolve "corexy_stepper_alloc" "-" rail_b;
               setup_itersolve "cartesian_stepper_alloc" "z" rail_c];
     max_z_velocity := 25; max_z_accel := 3000;
     limits := [sentinel; sentinel; sentinel];
     axes_min := {| cx := 0; cy := 0; cz := -5; ce := 0 |};
     axes_max := {| cx := 200; cy := 200; cz := 120; ce := 0 |} |}.

(** The same machine with the first rail homed, and with the third. *)
Definition kin_x_homed : Kinematics :=
  set_limits kin [(0, 200)%float; sentinel; sentinel].
Definition kin_z_homed : Kinematics :=
  set_limits kin [sentinel; sentinel; (-5, 120)%float].

(** Measured rail positions. *)
Definition positions : gmap string float :=
  <["stepper_a" := 10%float]>
    (<["stepper_b" := 4%float]> (<["stepper_c" := 1.5%float]> ∅)).

Definition move (end_pos axes_d : list float) (move_d : float) : Move :=
  {| end_pos := end_pos; axes_d := axes_d; move_d := move_d;
     velocity_cap := 300; accel_cap := 3000 |}.

(** A move along the first two axes that ends beyond the first rail. *)
Definition move_xy : Move := move [250; 10; 0; 0]%float [250; 10; 0; 0]%float 251.
(** A move along the first axis. *)
Definition move_x : Move := move [10; 0; 0; 0]%float [10; 0; 0; 0]%float 10.
(** A move along the third axis. *)
Definition move_z : Move := move [0; 0; 5; 0]%float [0; 0; 5; 0]%float 5.
(** A move along the first and third axes. *)
Definition move_xz : Move := move [30; 0; 40; 0]%float [30; 0; 40; 0]%float 50.

End Sample.

(** ** Vocabulary of the properties *)

(** The limits and the vectors of the move have the components the
    validation reads: three limits, and at least three coordinates. *)
Definition well_formed (k : Kinematics) (m : Move) : Prop :=
  length (limits k) = 3 /\ 3 <= length (end_pos m) /\ 3 <= length (axes_d m).

(** The move displaces axis [i] and ends outside the limit of axis [i]. *)
Definition violation (k : Kinematics) (m : Move) (i : nat) : bool :=
  match axes_d m !! i, end_pos m !! i, limits k !! i with
  | Some d, Some e, Some lim => truthy d && outside e lim
  | _, _, _ => false
  end.

(** The reason of a rejection, by the limit of the axis that causes it. *)
Definition diagnosis (lim : float * float) : exn :=
  if unhomed lim then must_home else out_of_range.

(** The string [sub] occurs in [s]. *)
Definition contains (s sub : string) : Prop :=
  exists pre post, s = pre +:+ sub +:+ post.

(** The letter of a slot, when its limit is homed. *)
Definition letter_if_homed (letter : string) (lim : float * float) : string :=
  if (lim.1 <=? lim.2)%float then letter else "".


(** The call the specification describes for homing [axis] on [rail]: the
    rail alone, a [homepos] with the endstop position in slot [axis], and a
    [forcepos] with, in the same slot, that position moved back by 1.5 times
    the distance to the far end of the range. *)
Definition homing_call (rail : Rail) (axis : nat) : HomeCall :=
  let hi := get_homing_info rail in
  let endstop := position_endstop hi in
  let force :=
    if positive_dir hi
    then (endstop - 1.5 * (endstop - (get_range rail).1))%float
    else (endstop + 1.5 * ((get_range rail).2 - endstop))%float in
  {| hc_rails := [rail];
     hc_forcepos := <[axis := Some force]> (replicate 4 None);
     hc_homepos := <[axis := Some endstop]> (replicate 4 None) |}.

(** The calls of [cs] up to the first that fails, included. *)
Fixpoint until_failure (outcome : HomeCall -> result unit) (cs : list HomeCall)
  : list HomeCall :=
  match cs with
  | [] => []
  | c :: cs' =>
      c :: match outcome c with
           | Ok _ => until_failure outcome cs'
           | Raise _ => []
           end
  end.

(** The float is a number: [x == x], which only a NaN fails. *)
Definition is_number (x : float) : bool := (x =? x)%float.

(** The exception of the first call of [cs] that fails, if one does. *)
Fixpoint first_failure (outcome : HomeCall -> result unit) (cs : list HomeCall)
  : result unit :=
  match cs with
  | [] => Ok tt
  | c :: cs' =>
      match outcome c with
      | Ok _ => first_failure outcome cs'
      | Raise e => Raise e
      end
  end.

(** The first endstop of a rail, [rail.get_endstops()[0][0]], if it has one. *)
Definition first_endstop (r : Rail) : option nat := fst <$> get_endstops r !! 0.

(** The states of a kinematics object: the one the constructor returns, and
    those its methods lead to from there. *)
Inductive reachable : Kinematics -> Prop :=
  | reach_init toolhead config tq axes_ids axis_set_letters w w' k :
      __init__ toolhead config tq axes_ids axis_set_letters w = (w', Ok k) ->
      reachable k
  | reach_set_position k newpos homing_axes k' :
      reachable k -> set_position k newpos homing_axes = Ok k' -> reachable k'
  | reach_note_z_not_homed k k' :
      reachable k -> note_z_not_homed k = Ok k' -> reachable k'
  | reach_motor_off k print_time :
      reachable k -> reachable (_motor_off k print_time).


(** * Properties *)

(** ** Comparison of floats *)

Lemma SFcompare_antisym (x y : spec_float) :
  SFcompare y x = option_map CompOpp (SFcompare x y).
Proof.
  destruct x as [sx|sx| |sx mx ex], y as [sy|sy| |sy my ey]; simpl;
    try reflexivity;
    try (destruct sx; reflexivity); try (destruct sy; reflexivity);
    try (destruct sx, sy; reflexivity).
  assert (Hm : Pos.compare_cont Eq my mx = CompOpp (Pos.compare_cont Eq mx my))
    by (symmetry; apply (Pos.compare_cont_antisym mx my Eq)).
  f_equal. destruct sx, sy; try reflexivity;
    rewrite (Z.compare_antisym ex ey), Hm;
    destruct (ex ?= ey)%Z; simpl; try reflexivity;
    destruct (Pos.compare_cont Eq mx my); reflexivity.
Qed.

Lemma SFltb_asym (x y : spec_float) : SFltb x y = true -> SFltb y x = false.
Proof.
  unfold SFltb. rewrite (SFcompare_antisym x y).
  destruct (SFcompare x y) as [[]|]; simpl; try discriminate; reflexivity.
Qed.

Lemma ltb_asym (x y : float) : (x <? y)%float = true -> (y <? x)%float = false.
Proof. rewrite !ltb_spec. apply SFltb_asym. Qed.

Lemma ltb_irrefl (x : float) : (x <? x)%float = false.
Proof.
  destruct (x <? x)%float eqn:E; [|reflexivity].
  pose proof (ltb_asym x x E) as E'. congruence.
Qed.

(** The absolute value of a float is zero only when the float is. *)
Lemma SFeqb_abs_zero (x : spec_float) :
  SFeqb (SFabs x) (S754_zero false) = SFeqb x (S754_zero false).
Proof. destruct x as [[]|[]| |[] mx ex]; reflexivity. Qed.

Lemma abs_eqb_zero (x : float) : (abs x =? 0)%float = (x =? 0)%float.
Proof.
  rewrite !FloatAxioms.eqb_spec, FloatAxioms.abs_spec.
  change (Prim2SF 0) with (S754_zero false). apply SFeqb_abs_zero.
Qed.

(** The division by the absolute value of a true float does not raise. *)
Lemma truediv_abs (x d : float) :
  truthy d = true -> truediv x (abs d) = Ok (x / abs d)%float.
Proof.
  unfold truthy, truediv. rewrite abs_eqb_zero.
  destruct (d =? 0)%float; [discriminate | reflexivity].
Qed.

(** [min(a, b)] is one of its arguments, and is not above the first. *)
Lemma py_min_cases (a b : float) :
  py_min a b = a \/ (py_min a b = b /\ (b <? a)%float = true).
Proof. unfold py_min. destruct (b <? a)%float; auto. Qed.

Lemma py_min_not_above (a b : float) : gtb (py_min a b) a = false.
Proof.
  unfold gtb, py_min. destruct (b <? a)%float eqn:E.
  - apply ltb_asym, E.
  - apply ltb_irrefl.
Qed.

(** ** Move validation *)

Lemma well_formed_shape (k : Kinematics) (m : Move) :
  well_formed k m ->
  exists l0 l1 l2 e0 e1 e2 er d0 d1 d2 dr,
    limits k = [l0; l1; l2] /\ end_pos m = e0 :: e1 :: e2 :: er
    /\ axes_d m = d0 :: d1 :: d2 :: dr.
Proof.
  intros (Hl & He & Hd).
  destruct (limits k) as [|l0 [|l1 [|l2 [|]]]]; simpl in Hl; try lia.
  destruct (end_pos m) as [|e0 [|e1 [|e2 er]]]; simpl in He; try lia.
  destruct (axes_d m) as [|d0 [|d1 [|d2 dr]]]; simpl in Hd; try lia.
  repeat eexists.
Qed.

Section Shape.

Variables (k : Kinematics) (m : Move).
Variables (l0 l1 l2 : float * float) (e0 e1 e2 d0 d1 d2 : float).
Variables (er dr : list float).
Hypothesis Hlim : limits k = [l0; l1; l2].
Hypothesis Hend : end_pos m = e0 :: e1 :: e2 :: er.
Hypothesis Hd : axes_d m = d0 :: d1 :: d2 :: dr.

(** The diagnosis reports the first axis in violation. *)
Lemma check_endstops_shape :
  _check_endstops k m =
    if truthy d0 && outside e0 l0 then Raise (diagnosis l0)
    else if truthy d1 && outside e1 l1 then Raise (diagnosis l1)
    else if truthy d2 && outside e2 l2 then Raise (diagnosis l2)
    else Ok tt.
Proof.
  unfold _check_endstops, diagnosis. rewrite Hlim, Hend, Hd. simpl.
  destruct (truthy d0), (outside e0 l0), (unhomed l0); simpl; try reflexivity;
    destruct (truthy d1), (outside e1 l1), (unhomed l1); simpl; try reflexivity;
    destruct (truthy d2), (outside e2 l2), (unhomed l2); reflexivity.
Qed.

(** [check_move], by cases on the three axes. *)
Lemma check_move_shape :
  check_move k m =
    if truthy d0 && outside e0 l0 then Raise (diagnosis l0)
    else if truthy d1 && outside e1 l1 then Raise (diagnosis l1)
    else if truthy d2 then
      if outside e2 l2 then Raise (diagnosis l2)
      else Ok (limit_speed m (max_z_velocity k * (move_d m / abs d2))%float
                             (max_z_accel k * (move_d m / abs d2))%float)
    else Ok m.
Proof.
  unfold check_move. rewrite check_endstops_shape.
  rewrite Hlim, Hend, Hd. simpl.
  destruct (truthy d2) eqn:T2; [rewrite (truediv_abs _ _ T2)|];
    destruct (truthy d0), (outside e0 l0); simpl;
    destruct (truthy d1), (outside e1 l1); simpl;
    destruct (outside e2 l2); reflexivity.
Qed.

Lemma violation_shape :
  violation k m 0 = truthy d0 && outside e0 l0
  /\ violation k m 1 = truthy d1 && outside e1 l1
  /\ violation k m 2 = truthy d2 && outside e2 l2.
Proof. unfold violation. rewrite Hlim, Hend, Hd. repeat split. Qed.

End Shape.

Ltac shape H :=
  destruct (well_formed_shape _ _ H)
    as (l0 & l1 & l2 & e0 & e1 & e2 & er & d0 & d1 & d2 & dr & Hlim & Hend & Hd);
  destruct (violation_shape _ _ _ _ _ _ _ _ _ _ _ _ _ Hlim Hend Hd)
    as (Hv0 & Hv1 & Hv2);
  pose proof (check_move_shape _ _ _ _ _ _ _ _ _ _ _ _ _ Hlim Hend Hd) as Hcm;
  pose proof (check_endstops_shape _ _ _ _ _ _ _ _ _ _ _ _ _ Hlim Hend Hd) as Hce.

(** C1, as the code has it.  A move that displaces an axis [i] of 0, 1, 2 and
    ends outside the limit of that axis is rejected by [check_move].  The
    reason is the one of the lowest such axis [j] (so [j <= i]): "Must home
    axis first" when the limit of [j] is unhomed ([low > high]), the
    collaborator's generic reason otherwise. *)
Theorem check_move_rejects_violation (k : Kinematics) (m : Move) (i : nat) :
  well_formed k m -> i < 3 -> violation k m i = true ->
  exists j lim,
    j <= i /\ violation k m j = true
    /\ (forall j', j' < j -> violation k m j' = false)
    /\ limits k !! j = Some lim
    /\ check_move k m = Raise (if unhomed lim then must_home else out_of_range).
Proof.
  intros Hwf Hi Hv. shape Hwf. fold (diagnosis l0) (diagnosis l1) (diagnosis l2).
  assert (Hlt : forall j' : nat, j' < 1 -> j' = 0) by lia.
  assert (Hlt2 : forall j' : nat, j' < 2 -> j' = 0 \/ j' = 1) by lia.
  rewrite Hcm, Hlim. clear Hcm Hce.
  destruct (truthy d0 && outside e0 l0) eqn:B0.
  { exists 0, l0. repeat split; try lia; auto. }
  destruct (truthy d1 && outside e1 l1) eqn:B1.
  { assert (i <> 0) by (intros ->; congruence).
    exists 1, l1. repeat split; try lia; auto.
    intros j' Hj'. rewrite (Hlt j' Hj'). exact Hv0. }
  assert (i = 2) as -> by (destruct i as [|[|[|]]]; try lia; congruence).
  exists 2, l2. rewrite Hv2 in Hv.
  apply andb_true_iff in Hv as [T2 O2]. rewrite T2, O2 in *.
  repeat split; try lia; auto.
  intros j' Hj'. destruct (Hlt2 j' Hj') as [-> | ->]; assumption.
Qed.

Lemma check_move_rejects_violation_witness :
  violation Sample.kin_x_homed Sample.move_xy 1 = true
  /\ exists j lim,
       j <= 1 /\ violation Sample.kin_x_homed Sample.move_xy j = true
       /\ (forall j', j' < j -> violation Sample.kin_x_homed Sample.move_xy j' = false)
       /\ limits Sample.kin_x_homed !! j = Some lim
       /\ check_move Sample.kin_x_homed Sample.move_xy
          = Raise (if unhomed lim then must_home else out_of_range).
Proof.
  split; [reflexivity|].
  apply (check_move_rejects_violation Sample.kin_x_homed Sample.move_xy 1).
  - unfold well_formed. simpl. lia.
  - lia.
  - reflexivity.
Defined.

(** C1, as stated, fails: with the first rail homed and the second not, a
    move that leaves the range of the first and displaces the second violates
    the unhomed limit of axis 1, and yet the reason is the generic one. *)
Lemma check_move_reason_counterexample :
  well_formed Sample.kin_x_homed Sample.move_xy
  /\ violation Sample.kin_x_homed Sample.move_xy 1 = true
  /\ limits Sample.kin_x_homed !! 1 = Some sentinel
  /\ unhomed sentinel = true
  /\ check_move Sample.kin_x_homed Sample.move_xy = Raise out_of_range
  /\ check_move Sample.kin_x_homed Sample.move_xy <> Raise must_home.
Proof.
  repeat split; try reflexivity; try (simpl; lia).
  vm_compute. discriminate.
Qed.

(** C7, as the code has it.  A move that ends outside the limit of axis 0 or
    of axis 1 and displaces that axis is rejected by [check_move].  When axis
    0 is such an axis the reason follows its limit; when only axis 1 is, the
    reason follows the limit of axis 1.  It is "Must home axis first" for an
    unhomed limit ([low > high]), as the sentinel is, and generic
    otherwise. *)
Theorem check_move_rejects_xy (k : Kinematics) (m : Move) :
  well_formed k m ->
  violation k m 0 = true \/ violation k m 1 = true ->
  exists i lim,
    limits k !! i = Some lim
    /\ (i = 0 /\ violation k m 0 = true
        \/ i = 1 /\ violation k m 0 = false /\ violation k m 1 = true)
    /\ check_move k m = Raise (diagnosis lim)
    /\ (lim = sentinel -> check_move k m = Raise must_home)
    /\ (unhomed lim = false -> check_move k m = Raise out_of_range).
Proof.
  intros Hwf Hv. shape Hwf. rewrite Hcm, Hlim. clear Hcm Hce.
  destruct (truthy d0 && outside e0 l0) eqn:B0.
  - exists 0, l0. repeat split; auto.
    + intros ->. reflexivity.
    + intros U. unfold diagnosis. rewrite U. reflexivity.
  - destruct Hv as [Hv | Hv]; [congruence|].
    rewrite Hv1 in Hv. rewrite Hv.
    exists 1, l1. repeat split; auto.
    + right. repeat split; congruence.
    + intros ->. reflexivity.
    + intros U. unfold diagnosis. rewrite U. reflexivity.
Qed.

Lemma check_move_rejects_xy_witness :
  exists i lim,
    limits Sample.kin !! i = Some lim
    /\ (i = 0 /\ violation Sample.kin Sample.move_x 0 = true
        \/ i = 1 /\ violation Sample.kin Sample.move_x 0 = false
           /\ violation Sample.kin Sample.move_x 1 = true)
    /\ check_move Sample.kin Sample.move_x = Raise (diagnosis lim)
    /\ (lim = sentinel -> check_move Sample.kin Sample.move_x = Raise must_home)
    /\ (unhomed lim = false
        -> check_move Sample.kin Sample.move_x = Raise out_of_range).
Proof.
  apply (check_move_rejects_xy Sample.kin Sample.move_x).
  - unfold well_formed. simpl. lia.
  - left. reflexivity.
Defined.

(** C7, as stated, fails twice.  With only the third rail homed, a move along
    the third axis ends outside the limits of axes 0 and 1 and is accepted.
    And with the first rail homed and the second not, a move that displaces
    both and ends outside both limits is rejected with the generic reason,
    while the limit of axis 1 is still the sentinel. *)
Lemma check_move_xy_counterexample :
  (outside 0 sentinel = true
   /\ end_pos Sample.move_z !! 0 = Some 0%float
   /\ limits Sample.kin_z_homed !! 0 = Some sentinel
   /\ check_move Sample.kin_z_homed Sample.move_z
      = Ok (limit_speed Sample.move_z 25 3000))
  /\ (outside 10 sentinel = true
      /\ end_pos Sample.move_xy !! 1 = Some 10%float
      /\ limits Sample.kin_x_homed !! 1 = Some sentinel
      /\ check_move Sample.kin_x_homed Sample.move_xy = Raise out_of_range).
Proof. repeat split. Qed.

(** C10.  [check_move] raises no error for a move in which every axis of 0,
    1, 2 whose end position is outside its limit is not displaced; so a move
    that leaves an unhomed axis where it is is accepted, although its end
    position on that axis is outside the sentinel limit. *)
Theorem check_move_accepts_undisplaced (k : Kinematics) (m : Move) :
  well_formed k m ->
  (forall i d e lim,
     i < 3 -> axes_d m !! i = Some d -> end_pos m !! i = Some e ->
     limits k !! i = Some lim -> outside e lim = true -> truthy d = false) ->
  exists m', check_move k m = Ok m'.
Proof.
  intros Hwf H. shape Hwf. rewrite Hcm. clear Hcm Hce Hv0 Hv1 Hv2.
  assert (H0 : truthy d0 && outside e0 l0 = false).
  { destruct (outside e0 l0) eqn:O; [|apply andb_false_r].
    rewrite (H 0 d0 e0 l0); auto; try lia;
      rewrite ?Hd, ?Hend, ?Hlim; reflexivity. }
  assert (H1 : truthy d1 && outside e1 l1 = false).
  { destruct (outside e1 l1) eqn:O; [|apply andb_false_r].
    rewrite (H 1 d1 e1 l1); auto; try lia;
      rewrite ?Hd, ?Hend, ?Hlim; reflexivity. }
  rewrite H0, H1.
  destruct (truthy d2) eqn:T2; [|eauto].
  destruct (outside e2 l2) eqn:O; [|eauto].
  rewrite (H 2 d2 e2 l2) in T2; auto; try lia; try discriminate;
    rewrite ?Hd, ?Hend, ?Hlim; reflexivity.
Qed.

Lemma check_move_accepts_undisplaced_witness :
  unhomed sentinel = true
  /\ limits Sample.kin_z_homed !! 0 = Some sentinel
  /\ end_pos Sample.move_z !! 0 = Some 0%float
  /\ outside 0 sentinel = true
  /\ exists m', check_move Sample.kin_z_homed Sample.move_z = Ok m'.
Proof.
  repeat split.
  apply (check_move_accepts_undisplaced Sample.kin_z_homed Sample.move_z).
  - unfold well_formed. simpl. lia.
  - intros [|[|[|i]]] d e lim Hi Hdi Hei Hli Ho; try lia;
      simpl in Hdi, Hei, Hli;
      injection Hdi as <-; injection Hei as <-; injection Hli as <-;
      try reflexivity.
    vm_compute in Ho. discriminate.
Defined.

(** C2, as the code has it.  Take a move that passes the endstop diagnosis.
    With zero displacement on axis 2, [check_move] returns the move as it is.
    With a nonzero one, it requests the caps [max_z_velocity * z_ratio] and
    [max_z_accel * z_ratio], where [z_ratio] is the move distance over the
    absolute displacement on axis 2; each cap becomes the minimum of the old
    cap and the requested one, and is never above the old cap. *)
Theorem check_move_z_caps (k : Kinematics) (m : Move) (dz : float) :
  well_formed k m -> axes_d m !! 2 = Some dz -> _check_endstops k m = Ok tt ->
  (truthy dz = false -> check_move k m = Ok m)
  /\ (truthy dz = true ->
      let z_ratio := (move_d m / abs dz)%float in
      let speed := (max_z_velocity k * z_ratio)%float in
      let accel := (max_z_accel k * z_ratio)%float in
      exists m',
        check_move k m = Ok m'
        /\ m' = limit_speed m speed accel
        /\ velocity_cap m' = py_min (velocity_cap m) speed
        /\ accel_cap m' = py_min (accel_cap m) accel
        /\ gtb (velocity_cap m') (velocity_cap m) = false
        /\ gtb (accel_cap m') (accel_cap m) = false
        /\ end_pos m' = end_pos m /\ axes_d m' = axes_d m
        /\ move_d m' = move_d m).
Proof.
  intros Hwf H2 Hpass. shape Hwf.
  rewrite Hd in H2. injection H2 as <-.
  rewrite Hce in Hpass. rewrite Hcm. clear Hcm Hce.
  destruct (truthy d0 && outside e0 l0); [discriminate|].
  destruct (truthy d1 && outside e1 l1); [discriminate|].
  split; intros T2; rewrite T2 in *; [reflexivity|].
  simpl in Hpass. destruct (outside e2 l2); [discriminate|].
  eexists. split; [reflexivity|].
  repeat split; simpl; apply py_min_not_above.
Qed.

Lemma check_move_z_caps_witness :
  (truthy 5 = false
   -> check_move Sample.kin_z_homed Sample.move_z = Ok Sample.move_z)
  /\ (truthy 5 = true ->
      exists m',
        check_move Sample.kin_z_homed Sample.move_z = Ok m'
        /\ m' = limit_speed Sample.move_z (25 * (5 / abs 5)) (3000 * (5 / abs 5))
        /\ velocity_cap m' = py_min 300 (25 * (5 / abs 5))
        /\ accel_cap m' = py_min 3000 (3000 * (5 / abs 5))
        /\ gtb (velocity_cap m') 300 = false
        /\ gtb (accel_cap m') 3000 = false
        /\ end_pos m' = end_pos Sample.move_z /\ axes_d m' = axes_d Sample.move_z
        /\ move_d m' = 5%float).
Proof.
  apply (check_move_z_caps Sample.kin_z_homed Sample.move_z 5);
    [unfold well_formed; simpl; lia | reflexivity | reflexivity].
Defined.

(** A move along the first axis, within the homed range of the first rail,
    keeps its caps; a move along the third axis at the full speed of the
    machine is capped to the speed of the third axis. *)
Example check_move_caps_examples :
  check_move Sample.kin_x_homed Sample.move_x = Ok Sample.move_x
  /\ (m' ← check_move Sample.kin_z_homed Sample.move_z;
      Ok (velocity_cap m', accel_cap m')) = Ok (25, 3000)%float.
Proof. split; reflexivity. Qed.

(** C2, as stated, fails: a move with zero displacement on axis 2 that
    displaces the unhomed axis 0 is rejected. *)
Lemma check_move_zero_z_counterexample :
  axes_d Sample.move_x !! 2 = Some 0%float
  /\ truthy 0 = false
  /\ check_move Sample.kin Sample.move_x = Raise must_home.
Proof. repeat split. Qed.

(** ** Forward kinematics *)

(** C3.  On three rails whose positions are [p0], [p1], [p2],
    [calc_position] returns [0.5 * (p0 + p1)], [0.5 * (p0 - p1)] and [p2]; so
    a machine coordinate that is the image of the rail positions is what
    [calc_position] returns on them. *)
Theorem calc_position_forward (k : Kinematics) (stepper_positions : gmap string float)
    (r0 r1 r2 : Rail) (p0 p1 p2 : float) :
  rails k = [r0; r1; r2] ->
  stepper_positions !! get_name r0 = Some p0 ->
  stepper_positions !! get_name r1 = Some p1 ->
  stepper_positions !! get_name r2 = Some p2 ->
  calc_position k stepper_positions
  = Ok [0.5 * (p0 + p1); 0.5 * (p0 - p1); p2]%float
  /\ forall x y z : float,
       x = (0.5 * (p0 + p1))%float -> y = (0.5 * (p0 - p1))%float -> z = p2 ->
       calc_position k stepper_positions = Ok [x; y; z].
Proof.
  intros Hr H0 H1 H2.
  assert (calc_position k stepper_positions
          = Ok [0.5 * (p0 + p1); 0.5 * (p0 - p1); p2]%float) as Heq.
  { unfold calc_position, getitem. rewrite Hr. simpl.
    rewrite H0. simpl. rewrite H1. simpl. rewrite H2. reflexivity. }
  split; [exact Heq|].
  intros x y z -> -> ->. exact Heq.
Qed.

Lemma calc_position_forward_witness :
  calc_position Sample.kin Sample.positions = Ok [7; 3; 1.5]%float.
Proof.
  exact (proj1 (calc_position_forward Sample.kin Sample.positions _ _ _ 10 4 1.5
                  eq_refl eq_refl eq_refl eq_refl)).
Defined.

(** ** Limits *)

(** C6.  [reset_limits] sets the three limits to the sentinel [(1.0, -1.0)],
    and the motor-off handler is [reset_limits], whatever the state and the
    time it is called at: afterwards each of the three limits is the
    sentinel. *)
Theorem motor_off_resets_limits (k : Kinematics) (print_time : float) :
  limits (reset_limits k) = [(1.0, -1.0); (1.0, -1.0); (1.0, -1.0)]%float
  /\ _motor_off k print_time = reset_limits k
  /\ limits (_motor_off k print_time)
     = [(1.0, -1.0); (1.0, -1.0); (1.0, -1.0)]%float
  /\ forall i lim, limits (_motor_off k print_time) !! i = Some lim ->
                   lim = sentinel /\ unhomed lim = true.
Proof.
  repeat split; try reflexivity;
    destruct i as [|[|[|i]]]; simpl in H; try discriminate;
    injection H as <-; reflexivity.
Qed.

(** There are always three limits: the constructor and the reset make
    three, and the updates are in place. *)
Lemma reset_limits_length (k : Kinematics) : length (limits (reset_limits k)) = 3.
Proof. reflexivity. Qed.

Lemma assign_length {A} (l l' : list A) (i : nat) (v : A) :
  assign l i v = Ok l' -> length l' = length l.
Proof.
  unfold assign. destruct (decide (i < length l)); [|discriminate].
  intros H. injection H as <-. apply length_insert.
Qed.

Lemma set_position_from_length (i : nat) (rs rs' : list Rail) (newpos : list float)
    (homing_axes : list nat) (lims lims' : list (float * float)) :
  set_position_from i rs newpos homing_axes lims = Ok (rs', lims') ->
  length lims' = length lims.
Proof.
  revert i rs' lims lims'.
  induction rs as [|rail rs IH]; intros i rs' lims lims' H; simpl in H.
  - injection H as _ <-. reflexivity.
  - destruct (bool_decide (i ∈ homing_axes)).
    + destruct (assign lims i _) as [lims1|] eqn:Ha; [|discriminate].
      simpl in H.
      destruct (set_position_from (S i) rs newpos homing_axes lims1)
        as [[rs1 lims2]|] eqn:Hrec; [|discriminate].
      simpl in H. injection H as _ <-.
      rewrite (IH _ _ _ _ Hrec). apply (assign_length _ _ _ _ Ha).
    + simpl in H.
      destruct (set_position_from (S i) rs newpos homing_axes lims)
        as [[rs1 lims2]|] eqn:Hrec; [|discriminate].
      simpl in H. injection H as _ <-. apply (IH _ _ _ _ Hrec).
Qed.

Lemma set_position_limits_length (k k' : Kinematics) (newpos : list float)
    (homing_axes : list nat) :
  set_position k newpos homing_axes = Ok k' ->
  length (limits k') = length (limits k).
Proof.
  unfold set_position. intros H.
  destruct (set_position_from 0 (rails k) newpos homing_axes (limits k))
    as [[rs lims]|] eqn:Hfrom; [|discriminate].
  simpl in H. injection H as <-. simpl.
  apply (set_position_from_length _ _ _ _ _ _ _ Hfrom).
Qed.

Lemma note_z_not_homed_length (k k' : Kinematics) :
  note_z_not_homed k = Ok k' -> length (limits k') = length (limits k).
Proof.
  unfold note_z_not_homed. intros H.
  destruct (assign (limits k) 2 sentinel) as [l|] eqn:Ha; [|discriminate].
  simpl in H. injection H as <-. simpl. apply (assign_length _ _ _ _ Ha).
Qed.

(** The reset changes nothing but the limits. *)
Lemma reset_limits_frame (k : Kinematics) :
  rails (reset_limits k) = rails k
  /\ axes_min (reset_limits k) = axes_min k
  /\ axes_max (reset_limits k) = axes_max k
  /\ max_z_velocity (reset_limits k) = max_z_velocity k
  /\ max_z_accel (reset_limits k) = max_z_accel k.
Proof. repeat split. Qed.

(** ** Status *)

Lemma homed_axes_shape (k : Kinematics) (eventtime : float)
    (l0 l1 l2 : float * float) :
  limits k = [l0; l1; l2] ->
  homed_axes (get_status k eventtime)
  = letter_if_homed "x" l0 +:+ letter_if_homed "y" l1 +:+ letter_if_homed "z" l2.
Proof.
  intros Hl. unfold get_status, homed_letters, letter_if_homed. rewrite Hl.
  simpl. rewrite !filter_cons, filter_nil. simpl.
  destruct (l0.1 <=? l0.2)%float, (l1.1 <=? l1.2)%float, (l2.1 <=? l2.2)%float;
    reflexivity.
Qed.

(** Homing the first two rails of three: every rail gets the position, and
    the first two limits become the ranges of their rails. *)
Lemma set_position_xy (k : Kinematics) (newpos : list float) (r0 r1 r2 : Rail)
    (l0 l1 l2 : float * float) :
  rails k = [r0; r1; r2] -> limits k = [l0; l1; l2] ->
  set_position k newpos [0; 1]
  = Ok (set_limits (set_rails k (rail_set_position newpos <$> [r0; r1; r2]))
          [get_range r0; get_range r1; l2]).
Proof.
  intros Hr Hl. unfold set_position. rewrite Hr, Hl. reflexivity.
Qed.

(** C8.  [get_status] reports as homed axes the letters, in the order x, y,
    z, of the slots whose limit has [low <= high], and the bounds set at
    construction.  After [reset_limits] the string is empty; after a
    following [set_position] with homing axes 0 and 1, on rails whose range
    has [min <= max], it is "xy".  ([set_position] leaves the third limit as
    it is: from any state it gives "xy", followed by "z" when the third slot
    was homed.) *)
Theorem get_status_homed_axes (k : Kinematics) (eventtime : float)
    (newpos : list float) (r0 r1 r2 : Rail) (l0 l1 l2 : float * float) :
  limits k = [l0; l1; l2] ->
  rails k = [r0; r1; r2] ->
  ((get_range r0).1 <=? (get_range r0).2)%float = true ->
  ((get_range r1).1 <=? (get_range r1).2)%float = true ->
  homed_axes (get_status k eventtime)
  = letter_if_homed "x" l0 +:+ letter_if_homed "y" l1 +:+ letter_if_homed "z" l2
  /\ axis_minimum (get_status k eventtime) = axes_min k
  /\ axis_maximum (get_status k eventtime) = axes_max k
  /\ homed_axes (get_status (reset_limits k) eventtime) = ""
  /\ (exists k',
        set_position (reset_limits k) newpos [0; 1] = Ok k'
        /\ homed_axes (get_status k' eventtime) = "xy")
  /\ (exists k',
        set_position k newpos [0; 1] = Ok k'
        /\ homed_axes (get_status k' eventtime)
           = "xy" +:+ letter_if_homed "z" l2).
Proof.
  intros Hl Hr H0 H1.
  split; [apply homed_axes_shape, Hl|].
  split; [reflexivity|]. split; [reflexivity|]. split; [reflexivity|].
  split; eexists; split.
  - apply (set_position_xy (reset_limits k) newpos r0 r1 r2
             sentinel sentinel sentinel); [exact Hr|reflexivity].
  - erewrite homed_axes_shape by reflexivity.
    unfold letter_if_homed. rewrite H0, H1. reflexivity.
  - apply (set_position_xy k newpos r0 r1 r2 l0 l1 l2); assumption.
  - erewrite homed_axes_shape by reflexivity.
    unfold letter_if_homed at 1 2. rewrite H0, H1. reflexivity.
Qed.

Lemma get_status_homed_axes_witness :
  homed_axes (get_status Sample.kin_z_homed 0) = "z"
  /\ exists k',
       set_position (reset_limits Sample.kin_z_homed) [0; 0; 0; 0]%float [0; 1]
       = Ok k'
       /\ homed_axes (get_status k' 0) = "xy".
Proof.
  destruct (get_status_homed_axes Sample.kin_z_homed 0 [0; 0; 0; 0]%float
              _ _ _ _ _ _ eq_refl eq_refl eq_refl eq_refl)
    as (Hz & _ & _ & _ & Hxy & _).
  split; [exact Hz | exact Hxy].
Defined.

(** [set_position] leaves the limits of the other slots as they are: from a
    state with the third rail homed the status is "xyz". *)
Example set_position_keeps_other_limits :
  (k' ← set_position Sample.kin_z_homed [0; 0; 0; 0]%float [0; 1];
   Ok (homed_axes (get_status k' 0))) = Ok "xyz".
Proof. reflexivity. Qed.

(** ** Homing *)

Section HomingProofs.

Variable outcome : HomeCall -> result unit.
Variable k : Kinematics.

Lemma home_axis_call (axis : nat) (rail : Rail) (calls : list HomeCall) :
  axis < 4 -> rails k !! axis = Some rail ->
  home_axis outcome k axis calls
  = (calls ++ [homing_call rail axis], outcome (homing_call rail axis)).
Proof.
  intros Ha Hr. unfold home_axis, homing_call, home_rails, lift, index.
  unfold mbind, M_bind. rewrite Hr.
  destruct (get_range rail) as [position_min position_max]. simpl.
  destruct axis as [|[|[|[|axis]]]]; try lia;
    destruct (positive_dir (get_homing_info rail)); reflexivity.
Qed.

Lemma home_cons (axis : nat) (axes : list nat) (calls : list HomeCall) :
  home outcome k (axis :: axes) calls
  = match home_axis outcome k axis calls with
    | (calls', Ok _) => home outcome k axes calls'
    | (calls', Raise e) => (calls', Raise e)
    end.
Proof. reflexivity. Qed.


End HomingProofs.





(** An axis with no rail, as the index 4 of a second triplet is on a machine
    of three rails, makes [home] raise before any call is issued. *)
Example home_axis_without_rail :
  home (fun _ => Ok tt) Sample.kin [4] [] = ([], Raise IndexError).
Proof. reflexivity. Qed.

(** ** Construction *)

Lemma lift_bind {S A B} (r : result A) (f : A -> M S B) (s : S) :
  (lift r ≫= f) s = match r with Ok a => f a s | Raise e => (s, Raise e) end.
Proof. destruct r; reflexivity. Qed.

Lemma lift_Ok_bind {S A B} (a : A) (f : A -> M S B) (s : S) :
  (lift (Ok a) ≫= f) s = f a s.
Proof. reflexivity. Qed.

Lemma bind_M {S A B} (m : M S A) (f : A -> M S B) (s : S) :
  (m ≫= f) s = match m s with
               | (s', Ok a) => f a s'
               | (s', Raise e) => (s', Raise e)
               end.
Proof. reflexivity. Qed.

Lemma comprehension_length {A B} (f : A -> result B) (l : list A) (l' : list B) :
  comprehension f l = Ok l' -> length l' = length l.
Proof.
  revert l'. induction l as [|x l IH]; intros l' H; simpl in H.
  - injection H as <-. reflexivity.
  - destruct (f x) as [y|e]; [|discriminate]. simpl in H.
    destruct (comprehension f l) as [ys|e]; [|discriminate]. simpl in H.
    injection H as <-. simpl. f_equal. apply IH. reflexivity.
Qed.

Lemma chars_length (s : string) : length (chars s) = String.length s.
Proof.
  unfold chars. rewrite length_fmap.
  induction s as [|c s IH]; simpl; [reflexivity | f_equal; exact IH].
Qed.

Lemma lower_length (s : string) : String.length (lower s) = String.length s.
Proof.
  unfold lower. induction s as [|c s IH]; simpl; [reflexivity | f_equal; exact IH].
Qed.

Lemma setup_rail_inv (l l' : list Rail) (i : nat) (alloc tag : string) :
  setup_rail l i alloc tag = Ok l' ->
  exists r, l !! i = Some r /\ l' = <[i := setup_itersolve alloc tag r]> l.
Proof.
  unfold setup_rail, index, assign. destruct (l !! i) as [r|]; [|discriminate].
  simpl. destruct (decide (i < length l)); [|discriminate].
  intros H. injection H as <-. exists r. split; reflexivity.
Qed.

(** ** Registration of steppers with endstops *)

Lemma registered_add_stepper (w : World) (e e' : nat) (s : string) :
  registered (add_stepper e s w).1 e'
  = if decide (e = e') then registered w e ++ [s] else registered w e'.
Proof.
  unfold registered at 1. simpl. destruct (decide (e = e')) as [<-|Hne].
  - rewrite lookup_insert_eq. reflexivity.
  - rewrite lookup_insert_ne by exact Hne. reflexivity.
Qed.

Lemma register_one_ok (rs : list Rail) (i : nat) (s : string) (w w' : World) :
  register_one rs i s w = (w', Ok tt) ->
  exists r e, rs !! i = Some r /\ get_endstops r !! 0 = Some e
              /\ w' = (add_stepper e.1 s w).1.
Proof.
  unfold register_one, index. rewrite lift_bind.
  destruct (rs !! i) as [r|]; [|discriminate]. rewrite lift_bind.
  destruct (get_endstops r !! 0) as [e|] eqn:He; [|discriminate].
  intros H. exists r, e. rewrite H. split; [|split]; auto.
Qed.

Lemma register_with_ok (rs : list Rail) (i : nat) (ss : list string)
    (w w' : World) :
  register_with rs i ss w = (w', Ok tt) ->
  (forall e s, s ∈ registered w e -> s ∈ registered w' e)
  /\ (forall s, s ∈ ss ->
        exists r e, rs !! i = Some r /\ get_endstops r !! 0 = Some e
                    /\ s ∈ registered w' e.1).
Proof.
  unfold register_with. revert w.
  induction ss as [|s ss IH]; intros w H.
  - injection H as <-. split; [auto|]. intros s Hs. inversion Hs.
  - simpl in H. rewrite bind_M in H.
    destruct (register_one rs i s w) as [w1 [[]|err]] eqn:Hone; [|discriminate].
    apply register_one_ok in Hone as (r & e & Hr & He & Hw1).
    destruct (IH w1 H) as [Hmono Hall].
    split.
    + intros e' s' Hs'. apply Hmono. rewrite Hw1, registered_add_stepper.
      destruct (decide (e.1 = e')) as [<-|]; [|exact Hs'].
      apply elem_of_app. left. exact Hs'.
    + intros s' Hs'. apply elem_of_cons in Hs' as [->|Hs'].
      * exists r, e. repeat split; auto. apply Hmono.
        rewrite Hw1, registered_add_stepper.
        destruct (decide (e.1 = e.1)); [|congruence].
        apply elem_of_app. right. apply list_elem_of_singleton. reflexivity.
      * destruct (Hall s' Hs') as (r' & e' & Hr' & He' & Hin).
        exists r', e'. auto.
Qed.

(** Setting the trapq of the steppers and registering their step generators
    leaves the endstops as they are, and does not fail. *)
Lemma attach_steppers_endstops (tq : nat) (ss : list string) (w : World) :
  exists w',
    for_eachM ss (fun s => _ ← set_trapq s tq; register_step_generator s) w
    = (w', Ok tt)
    /\ endstop_steppers w' = endstop_steppers w
    /\ event_handlers w' = event_handlers w.
Proof.
  revert w. induction ss as [|s ss IH]; intros w.
  - exists w. repeat split.
  - simpl. rewrite bind_M. simpl.
    match goal with |- context [for_eachM ss ?body ?w1] =>
      destruct (IH w1) as (w' & Hrun & He & Hh) end.
    exists w'. rewrite Hrun. repeat split; [rewrite He | rewrite Hh]; reflexivity.
Qed.

Lemma index_0 {A} (x : A) (l : list A) : index (x :: l) 0 = Ok x.
Proof. reflexivity. Qed.

Lemma index_S {A} (x : A) (l : list A) (i : nat) :
  index (x :: l) (S i) = index l i.
Proof. reflexivity. Qed.

Lemma index_nil {A} (i : nat) : index (@nil A) i = Raise IndexError.
Proof. destruct i; reflexivity. Qed.

(** What a successful construction has done. *)
Lemma init_ok_inv (toolhead : Toolhead) (config : Config) (tq : option nat)
    (axes_ids : list nat) (axis_set_letters : string) (w w' : World)
    (k : Kinematics) :
  __init__ toolhead config tq axes_ids axis_set_letters w = (w', Ok k) ->
  exists r0 r1 r2 w1 w2,
    length axes_ids = String.length axis_set_letters
    /\ comprehension (fun n => LookupMultiRail config ("stepper_" +:+ n))
         (chars (lower axis_set_letters)) = Ok [r0; r1; r2]
    /\ register_with [r0; r1; r2] 0 (rail_get_steppers r1) w = (w1, Ok tt)
    /\ register_with [r0; r1; r2] 1 (rail_get_steppers r0) w1 = (w2, Ok tt)
    /\ endstop_steppers w' = endstop_steppers w2
    /\ event_handlers w' = event_handlers w2 ++ ["stepper_enable:motor_off"]
    /\ rails k = [setup_itersolve "corexy_stepper_alloc" "+" r0;
                  setup_itersolve "corexy_stepper_alloc" "-" r1;
                  setup_itersolve "cartesian_stepper_alloc" "z" r2]
    /\ limits k = [sentinel; sentinel; sentinel]
    /\ axes_min k = {| cx := (get_range r0).1; cy := (get_range r1).1;
                       cz := (get_range r2).1; ce := 0 |}
    /\ axes_max k = {| cx := (get_range r0).2; cy := (get_range r1).2;
                       cz := (get_range r2).2; ce := 0 |}.
Proof.
  unfold __init__. intros H.
  rewrite lift_bind in H.
  destruct (decide (length axes_ids ≠ String.length axis_set_letters))
    as [|Hlen]; [discriminate|].
  rewrite lift_bind in H.
  destruct (index axes_ids 0) as [a0|]; [|discriminate].
  rewrite lift_bind in H.
  destruct (comprehension (index (chars "XYZABCUVW")) _) as [names|];
    [|discriminate].
  rewrite lift_bind in H.
  destruct (comprehension (fun n => LookupMultiRail config ("stepper_" +:+ n)) _)
    as [rs|]; [|discriminate].
  destruct rs as [|r0 [|r1 [|r2 [|r3 rs]]]];
    rewrite ?index_S, ?index_0, ?index_nil in H;
    rewrite ?lift_Ok_bind in H; try discriminate.
  all: rewrite bind_M in H;
    destruct (register_with _ 0 _ w) as [w1 [[]|]] eqn:Hreg1; [|discriminate];
    rewrite ?lift_Ok_bind in H;
    rewrite bind_M in H;
    destruct (register_with _ 1 _ w1) as [w2 [[]|]] eqn:Hreg2; [|discriminate];
    rewrite lift_bind in H;
    destruct (setup_rail _ 0 _ _) as [rs1|] eqn:Hs0; [|discriminate];
    apply setup_rail_inv in Hs0 as (x0 & Hx0 & ->);
    simpl in Hx0; injection Hx0 as <-;
    rewrite lift_bind in H;
    destruct (setup_rail _ 1 _ _) as [rs2|] eqn:Hs1; [|discriminate];
    apply setup_rail_inv in Hs1 as (x1 & Hx1 & ->);
    simpl in Hx1; injection Hx1 as <-;
    rewrite lift_bind in H;
    destruct (setup_rail _ 2 _ _) as [rs3|] eqn:Hs2; [|discriminate];
    apply setup_rail_inv in Hs2 as (x2 & Hx2 & ->);
    simpl in Hx2; try discriminate; injection Hx2 as <-.
  all: rewrite bind_M in H;
    match type of H with context [for_eachM ?ss ?body ?w0] =>
      destruct (attach_steppers_endstops (th_get_trapq toolhead None) ss w0)
        as (w3 & Hrun & He & Hh)
    end;
    rewrite Hrun in H; rewrite bind_M in H;
    unfold register_event_handler at 1 in H;
    destruct (th_get_max_velocity toolhead) as [max_velocity max_accel];
    rewrite lift_bind in H;
    destruct (getfloat "max_z_velocity" _ _ _ _) as [vz|]; [|discriminate];
    rewrite lift_bind in H;
    destruct (getfloat "max_z_accel" _ _ _ _) as [az|]; [|discriminate];
    rewrite lift_bind in H;
    destruct (make_coord _) as [cmin|] eqn:Hmin; [|discriminate];
    simpl in Hmin; try discriminate.
  injection Hmin as <-. rewrite lift_bind in H.
  destruct (make_coord _) as [cmax|] eqn:Hmax; [|discriminate].
  simpl in Hmax. injection Hmax as <-.
  injection H as <- <-.
  exists r0, r1, r2, w1, w2. simpl. rewrite He, Hh.
  repeat split; auto. lia.
Qed.

Lemma setup_rail_lookup (l : list Rail) (i : nat) (alloc tag : string) (r : Rail) :
  l !! i = Some r ->
  setup_rail l i alloc tag = Ok (<[i := setup_itersolve alloc tag r]> l).
Proof.
  intros Hr. unfold setup_rail, index, assign. rewrite Hr. simpl.
  destruct (decide (i < length l)) as [|Hge]; [reflexivity|].
  apply lookup_lt_Some in Hr. lia.
Qed.

Lemma setup_rail_ge (l : list Rail) (i : nat) (alloc tag : string) :
  length l <= i -> setup_rail l i alloc tag = Raise IndexError.
Proof.
  intros Hge. unfold setup_rail, index.
  rewrite (lookup_ge_None_2 l i) by exact Hge. reflexivity.
Qed.

Lemma append_assoc (s1 s2 s3 : string) :
  (s1 +:+ s2) +:+ s3 = s1 +:+ (s2 +:+ s3).
Proof.
  induction s1 as [|c s1 IH]; [reflexivity|].
  change (String c ((s1 +:+ s2) +:+ s3) = String c (s1 +:+ (s2 +:+ s3))).
  rewrite IH. reflexivity.
Qed.

(** The constructor registers the motor-off handler. *)
Lemma init_registers_motor_off (toolhead : Toolhead) (config : Config)
    (tq : option nat) (axes_ids : list nat) (axis_set_letters : string)
    (w w' : World) (k : Kinematics) :
  __init__ toolhead config tq axes_ids axis_set_letters w = (w', Ok k) ->
  "stepper_enable:motor_off" ∈ event_handlers w' /\ length (limits k) = 3.
Proof.
  intros H.
  apply init_ok_inv in H
    as (r0 & r1 & r2 & w1 & w2 & _ & _ & _ & _ & _ & Hh & _ & Hl & _).
  rewrite Hh, Hl. split; [|reflexivity].
  apply elem_of_app. right. apply list_elem_of_singleton. reflexivity.
Qed.

(** The first half of C5: when the count of indexes differs from the count
    of letters, the constructor raises its exception before it acts on any
    collaborator; the message names the indexes and the letters. *)
Lemma init_length_mismatch (toolhead : Toolhead) (config : Config)
    (tq : option nat) (axes_ids : list nat) (axis_set_letters : string)
    (w : World) :
  length axes_ids <> String.length axis_set_letters ->
  __init__ toolhead config tq axes_ids axis_set_letters w
  = (w, Raise (Exception (mismatch_msg axes_ids axis_set_letters)))
  /\ contains (mismatch_msg axes_ids axis_set_letters) (str_tuple axes_ids)
  /\ contains (mismatch_msg axes_ids axis_set_letters) axis_set_letters.
Proof.
  intros Hne. split; [|split].
  - unfold __init__. rewrite lift_bind.
    destruct (decide (length axes_ids ≠ String.length axis_set_letters));
      [reflexivity | contradiction].
  - unfold mismatch_msg.
    exists "CartKinematicsABC: The amount of axis indexes in '".
    exists ("'" +:+ " does not match the count of axis names '"
            +:+ axis_set_letters +:+ "'.").
    rewrite 2!append_assoc. reflexivity.
  - unfold mismatch_msg.
    exists (("CartKinematicsABC: The amount of axis indexes in '"
             +:+ str_tuple axes_ids +:+ "'")
            +:+ " does not match the count of axis names '").
    exists "'.".
    rewrite (append_assoc _ " does not match the count of axis names '").
    reflexivity.
Qed.

Example init_length_mismatch_sample :
  (__init__ Sample.toolhead Sample.config None [3; 4] "ABC" Sample.world).2
  = Raise (Exception
      "CartKinematicsABC: The amount of axis indexes in '(3, 4)' does not match the count of axis names 'ABC'.").
Proof. vm_compute. reflexivity. Qed.

(** On the sample configuration the constructor returns the sample object. *)
Example init_sample :
  (__init__ Sample.toolhead Sample.config None [3; 4; 5] "ABC" Sample.world).2
  = Ok Sample.kin.
Proof. vm_compute. reflexivity. Qed.

(** C5: the second half does not hold of the code.  With as many indexes as
    letters, and fewer than three of them, the constructor raises: it reads
    [axes_ids[0]], [rails[1]] and [rails[2]] whatever the count, although its
    comments allow an axis set of length less or equal to 3. *)
Theorem init_fewer_than_three_raises (toolhead : Toolhead) (config : Config)
    (tq : option nat) (axes_ids : list nat) (axis_set_letters : string)
    (w : World) :
  length axes_ids = String.length axis_set_letters ->
  String.length axis_set_letters < 3 ->
  exists e,
    (__init__ toolhead config tq axes_ids axis_set_letters w).2 = Raise e.
Proof.
  intros Hlen Hlt. unfold __init__.
  rewrite lift_bind.
  destruct (decide (length axes_ids ≠ String.length axis_set_letters));
    [eexists; reflexivity|].
  rewrite lift_bind.
  destruct (index axes_ids 0) as [a0|]; [|eexists; reflexivity].
  rewrite lift_bind.
  destruct (comprehension (index (chars "XYZABCUVW")) _) as [names|];
    [|eexists; reflexivity].
  rewrite lift_bind.
  destruct (comprehension (fun n => LookupMultiRail config ("stepper_" +:+ n)) _)
    as [rs|] eqn:Hrs; [|eexists; reflexivity].
  apply comprehension_length in Hrs. rewrite chars_length, lower_length in Hrs.
  destruct rs as [|r0 [|r1 [|r2 rs]]]; simpl in Hrs; try lia;
    rewrite ?index_S, ?index_0, ?index_nil;
    try (rewrite lift_bind; eexists; reflexivity).
  rewrite lift_Ok_bind, bind_M.
  destruct (register_with _ 0 _ w) as [w1 [[]|]]; [|eexists; reflexivity].
  rewrite lift_Ok_bind, bind_M.
  destruct (register_with _ 1 _ w1) as [w2 [[]|]]; [|eexists; reflexivity].
  rewrite (setup_rail_lookup [r0; r1] 0 _ _ r0) by reflexivity.
  rewrite lift_Ok_bind. simpl insert.
  rewrite (setup_rail_lookup _ 1 _ _ r1) by reflexivity.
  rewrite lift_Ok_bind. simpl insert.
  rewrite setup_rail_ge by (simpl; lia).
  rewrite lift_bind. eexists. reflexivity.
Qed.

Lemma init_fewer_than_three_raises_witness :
  (__init__ Sample.toolhead Sample.config None [3; 4] "AB" Sample.world).2
  = Raise IndexError.
Proof.
  destruct (init_fewer_than_three_raises Sample.toolhead Sample.config None
              [3; 4] "AB" Sample.world eq_refl) as [e He].
  - simpl. lia.
  - rewrite He. vm_compute in He. injection He as <-. reflexivity.
Defined.

(** C9.  After a construction, each stepper of rail 0 is registered with the
    first endstop of rail 1, and each stepper of rail 1 with the first
    endstop of rail 0. *)
Theorem init_cross_registers (toolhead : Toolhead) (config : Config)
    (tq : option nat) (axes_ids : list nat) (axis_set_letters : string)
    (w w' : World) (k : Kinematics) :
  __init__ toolhead config tq axes_ids axis_set_letters w = (w', Ok k) ->
  exists r0 r1,
    rails k !! 0 = Some r0 /\ rails k !! 1 = Some r1
    /\ (forall s, s ∈ rail_get_steppers r0 ->
          exists e1, get_endstops r1 !! 0 = Some e1 /\ s ∈ registered w' e1.1)
    /\ (forall s, s ∈ rail_get_steppers r1 ->
          exists e0, get_endstops r0 !! 0 = Some e0 /\ s ∈ registered w' e0.1).
Proof.
  intros H.
  apply init_ok_inv in H
    as (r0 & r1 & r2 & w1 & w2 & _ & _ & Hreg1 & Hreg2 & He & _ & Hrails & _).
  apply register_with_ok in Hreg1 as [_ Hall1].
  apply register_with_ok in Hreg2 as [Hmono2 Hall2].
  assert (Hw : forall e, registered w' e = registered w2 e)
    by (intros e; unfold registered; rewrite He; reflexivity).
  rewrite Hrails. eexists _, _. split; [reflexivity|]. split; [reflexivity|].
  simpl. split; intros s Hs.
  - destruct (Hall2 s Hs) as (r & e & Hr & Hend & Hin).
    injection Hr as <-. exists e. rewrite Hw. auto.
  - destruct (Hall1 s Hs) as (r & e & Hr & Hend & Hin).
    injection Hr as <-. exists e. rewrite Hw. auto.
Qed.

Lemma init_cross_registers_witness :
  exists w',
    __init__ Sample.toolhead Sample.config None [3; 4; 5] "ABC" Sample.world
    = (w', Ok Sample.kin)
    /\ "stepper_a" ∈ registered w' 11
    /\ "stepper_a1" ∈ registered w' 11
    /\ "stepper_b" ∈ registered w' 10.
Proof.
  set (w' := (__init__ Sample.toolhead Sample.config None [3; 4; 5] "ABC"
                Sample.world).1).
  assert (H : __init__ Sample.toolhead Sample.config None [3; 4; 5] "ABC"
                Sample.world = (w', Ok Sample.kin))
    by (vm_compute; reflexivity).
  clearbody w'.
  destruct (init_cross_registers _ _ _ _ _ _ _ _ H)
    as (r0 & r1 & Hr0 & Hr1 & H01 & H10).
  simpl in Hr0, Hr1. injection Hr0 as <-. injection Hr1 as <-.
  exists w'. split; [exact H|]. split; [|split].
  - destruct (H01 "stepper_a") as (e1 & He1 & Hin).
    { apply list_elem_of_In. simpl. auto. }
    simpl in He1. injection He1 as <-. exact Hin.
  - destruct (H01 "stepper_a1") as (e1 & He1 & Hin).
    { apply list_elem_of_In. simpl. auto. }
    simpl in He1. injection He1 as <-. exact Hin.
  - destruct (H10 "stepper_b") as (e0 & He0 & Hin).
    { apply list_elem_of_In. simpl. auto. }
    simpl in He0. injection He0 as <-. exact Hin.
Defined.

(** A configuration of two axes: the constructor raises at [rails[2]], after
    it has registered the steppers of each rail with the endstop of the
    other. *)
Example init_two_axes :
  let r := __init__ Sample.toolhead Sample.config None [3; 4] "AB" Sample.world in
  r.2 = Raise IndexError
  /\ registered r.1 10 = ["stepper_b"]
  /\ registered r.1 11 = ["stepper_a"; "stepper_a1"].
Proof. vm_compute. split; [|split]; reflexivity. Qed.

(** * Further properties *)

(** ** Floats that are not numbers *)

Lemma SFeqb_refl_number (s : spec_float) : SFeqb s s = false -> s = S754_nan.
Proof.
  unfold SFeqb. destruct s as [[]|[]| |[] m e]; simpl; try discriminate;
    try reflexivity;
    rewrite Z.compare_refl, Pos.compare_cont_refl; discriminate.
Qed.

Lemma is_number_false (x : float) : is_number x = false -> Prim2SF x = S754_nan.
Proof.
  unfold is_number. rewrite FloatAxioms.eqb_spec. apply SFeqb_refl_number.
Qed.

Lemma is_number_true (x : float) : is_number x = true -> Prim2SF x <> S754_nan.
Proof.
  unfold is_number. rewrite FloatAxioms.eqb_spec. intros H E. rewrite E in H.
  discriminate.
Qed.

(** A NaN compares false with everything, so it is outside no interval. *)
Lemma nan_not_outside (x : float) (lim : float * float) :
  is_number x = false -> outside x lim = false.
Proof.
  intros H. apply is_number_false in H.
  unfold outside, gtb. rewrite !ltb_spec, H. unfold SFltb. simpl.
  destruct (Prim2SF lim.2); reflexivity.
Qed.

(** Every number is outside the sentinel interval. *)
Lemma number_outside_sentinel (x : float) :
  is_number x = true -> outside x sentinel = true.
Proof.
  intros H. apply is_number_true in H.
  unfold outside, gtb, sentinel. simpl. rewrite !ltb_spec.
  change (Prim2SF 1) with (S754_finite false 4503599627370496 (-52)).
  change (Prim2SF (-1)) with (S754_finite true 4503599627370496 (-52)).
  destruct (Prim2SF x) as [[]|[]| |[] m e];
    first [ congruence
          | apply orb_true_iff; left; reflexivity
          | apply orb_true_iff; right; reflexivity ].
Qed.

(** [x <= y] excludes [x > y]. *)
Lemma leb_not_gtb (x y : float) : (x <=? y)%float = true -> gtb x y = false.
Proof.
  unfold gtb. rewrite leb_spec, ltb_spec. unfold SFleb, SFltb.
  rewrite (SFcompare_antisym (Prim2SF x) (Prim2SF y)).
  destruct (SFcompare (Prim2SF x) (Prim2SF y)) as [[]|]; simpl;
    try discriminate; reflexivity.
Qed.

(** A coordinate within an interval is not outside it. *)
Lemma within_not_outside (x : float) (lim : float * float) :
  (lim.1 <=? x)%float = true -> (x <=? lim.2)%float = true ->
  outside x lim = false.
Proof.
  intros Hlo Hhi. unfold outside.
  rewrite (leb_not_gtb _ _ Hhi), orb_false_r.
  apply (leb_not_gtb _ _ Hlo).
Qed.

(** ** Moves on an unhomed machine *)

(** With the three limits at the sentinel, a move that displaces an axis to
    a position that is a number is rejected, with "Must home axis first". *)
Lemma unhomed_rejects (k : Kinematics) (m : Move) (i : nat) (dx ex : float) :
  limits k = [sentinel; sentinel; sentinel] ->
  3 <= length (end_pos m) -> 3 <= length (axes_d m) ->
  i < 3 -> axes_d m !! i = Some dx -> truthy dx = true ->
  end_pos m !! i = Some ex -> is_number ex = true ->
  check_move k m = Raise must_home.
Proof.
  intros Hs He Hdl Hi Hdx Ht Hex Hn.
  assert (Hwf : well_formed k m) by (unfold well_formed; rewrite Hs; auto).
  shape Hwf. rewrite Hs in Hlim.
  injection Hlim as <- <- <-. rewrite Hcm. clear Hcm Hce Hv0 Hv1 Hv2.
  change (diagnosis sentinel) with must_home.
  apply number_outside_sentinel in Hn.
  rewrite Hd in Hdx. rewrite Hend in Hex.
  destruct i as [|[|[|i]]]; try lia; simpl in Hdx, Hex;
    injection Hdx as <-; injection Hex as <-; rewrite Ht, Hn; simpl.
  - reflexivity.
  - destruct (truthy d0 && outside e0 sentinel); reflexivity.
  - destruct (truthy d0 && outside e0 sentinel); [reflexivity|].
    destruct (truthy d1 && outside e1 sentinel); reflexivity.
Qed.

(** X1.  After the motor-off handler no move that displaces one of the three axes
    to a position that is a number is accepted: [check_move] raises "Must
    home axis first", whatever the state was before. *)
Theorem motor_off_rejects_displacement (k : Kinematics) (print_time : float)
    (m : Move) (i : nat) (dx ex : float) :
  3 <= length (end_pos m) -> 3 <= length (axes_d m) ->
  i < 3 -> axes_d m !! i = Some dx -> truthy dx = true ->
  end_pos m !! i = Some ex -> is_number ex = true ->
  check_move (_motor_off k print_time) m = Raise must_home.
Proof. apply unhomed_rejects. reflexivity. Qed.

Lemma motor_off_rejects_displacement_witness :
  check_move Sample.kin_x_homed Sample.move_x = Ok Sample.move_x
  /\ check_move (_motor_off Sample.kin_x_homed 0) Sample.move_x = Raise must_home.
Proof.
  split; [reflexivity|].
  apply (motor_off_rejects_displacement Sample.kin_x_homed 0 Sample.move_x 0 10 10);
    try reflexivity; simpl; lia.
Defined.

(** X4.  A NaN is outside no interval: a move whose end position is a NaN on each
    of the three axes passes [check_move], even on an unhomed machine. *)
Theorem check_move_accepts_nan (k : Kinematics) (m : Move) (x y z : float) :
  length (limits k) = 3 -> 3 <= length (axes_d m) ->
  take 3 (end_pos m) = [x; y; z] ->
  is_number x = false -> is_number y = false -> is_number z = false ->
  exists m', check_move k m = Ok m'.
Proof.
  intros Hl Hdl Htake Hx Hy Hz.
  assert (Hwf : well_formed k m).
  { unfold well_formed. split; [exact Hl|]. split; [|exact Hdl].
    apply (f_equal length) in Htake. rewrite length_take in Htake.
    change (length [x; y; z]) with 3 in Htake. lia. }
  shape Hwf. rewrite Hend in Htake. simpl in Htake.
  injection Htake as -> -> ->.
  rewrite Hcm, !nan_not_outside by assumption.
  rewrite !andb_false_r. destruct (truthy d2); eauto.
Qed.

Lemma check_move_accepts_nan_witness :
  exists m',
    check_move Sample.kin (Sample.move [nan; nan; nan; 0]%float
                                       [1; 1; 1; 0]%float 2) = Ok m'.
Proof.
  apply (check_move_accepts_nan Sample.kin _ nan nan nan);
    try reflexivity; simpl; lia.
Defined.

(** ** Moves within the limits *)

Lemma within_accepted (k : Kinematics) (m : Move) :
  well_formed k m ->
  (forall i ex lim,
     i < 3 -> end_pos m !! i = Some ex -> limits k !! i = Some lim ->
     (lim.1 <=? ex)%float = true /\ (ex <=? lim.2)%float = true) ->
  exists m', check_move k m = Ok m'.
Proof.
  intros Hwf H. shape Hwf. rewrite Hcm. clear Hcm Hce Hv0 Hv1 Hv2.
  assert (O0 : outside e0 l0 = false).
  { destruct (H 0 e0 l0) as [Hlo Hhi]; try lia;
      rewrite ?Hend, ?Hlim; try reflexivity.
    apply within_not_outside; assumption. }
  assert (O1 : outside e1 l1 = false).
  { destruct (H 1 e1 l1) as [Hlo Hhi]; try lia;
      rewrite ?Hend, ?Hlim; try reflexivity.
    apply within_not_outside; assumption. }
  assert (O2 : outside e2 l2 = false).
  { destruct (H 2 e2 l2) as [Hlo Hhi]; try lia;
      rewrite ?Hend, ?Hlim; try reflexivity.
    apply within_not_outside; assumption. }
  rewrite O0, O1, O2, !andb_false_r. destruct (truthy d2); eauto.
Qed.

(** X3.  A move whose end position lies within the limit of each of the three
    axes, [low <= end <= high], is accepted. *)
Theorem check_move_accepts_within (k : Kinematics) (m : Move) :
  well_formed k m ->
  (forall i ex lim,
     i < 3 -> end_pos m !! i = Some ex -> limits k !! i = Some lim ->
     (lim.1 <=? ex)%float = true /\ (ex <=? lim.2)%float = true) ->
  exists m', check_move k m = Ok m'.
Proof. apply within_accepted. Qed.

Lemma check_move_accepts_within_witness :
  exists m',
    check_move (set_limits Sample.kin [(0, 200); (0, 200); (-5, 120)]%float)
               Sample.move_xz = Ok m'.
Proof.
  apply check_move_accepts_within.
  - unfold well_formed. simpl. lia.
  - intros [|[|[|i]]] ex lim Hi Hex Hlim; try lia;
      simpl in Hex, Hlim; injection Hex as <-; injection Hlim as <-;
      split; reflexivity.
Defined.

(** ** Marking the third axis unhomed *)

Lemma append_empty_r (s : string) : s +:+ "" = s.
Proof.
  induction s as [|c s IH]; [reflexivity|].
  change (String c (s +:+ "") = String c s). rewrite IH. reflexivity.
Qed.

(** X7.  [note_z_not_homed] puts the sentinel in the third limit and leaves the
    rest as it is: the status keeps the letters of the first two axes and
    loses that of the third. *)
Theorem note_z_not_homed_limits (k : Kinematics) (eventtime : float)
    (l0 l1 l2 : float * float) :
  limits k = [l0; l1; l2] ->
  exists k',
    note_z_not_homed k = Ok k'
    /\ limits k' = [l0; l1; sentinel]
    /\ rails k' = rails k
    /\ axes_min k' = axes_min k /\ axes_max k' = axes_max k
    /\ homed_axes (get_status k' eventtime)
       = letter_if_homed "x" l0 +:+ letter_if_homed "y" l1.
Proof.
  intros Hl. eexists. split.
  - unfold note_z_not_homed. rewrite Hl. reflexivity.
  - split; [reflexivity|]. split; [reflexivity|].
    split; [reflexivity|]. split; [reflexivity|].
    rewrite (homed_axes_shape _ eventtime l0 l1 sentinel) by reflexivity.
    change (letter_if_homed "z" sentinel) with "".
    rewrite append_empty_r. reflexivity.
Qed.

Lemma note_z_not_homed_limits_witness :
  exists k',
    note_z_not_homed
      (set_limits Sample.kin [(0, 200); (0, 200); (-5, 120)]%float) = Ok k'
    /\ limits k' = [(0, 200)%float; (0, 200)%float; sentinel]
    /\ rails k' = rails Sample.kin
    /\ axes_min k' = axes_min Sample.kin /\ axes_max k' = axes_max Sample.kin
    /\ homed_axes (get_status k' 0) = "xy".
Proof.
  apply (note_z_not_homed_limits
           (set_limits Sample.kin [(0, 200); (0, 200); (-5, 120)]%float) 0
           (0, 200)%float (0, 200)%float (-5, 120)%float).
  reflexivity.
Defined.

(** X8.  After [note_z_not_homed] a move with no displacement on the third axis is
    checked as before, and a move that displaces the third axis to a position
    that is a number, and is not in violation on the first two axes, is
    rejected with "Must home axis first". *)
Theorem note_z_not_homed_check_move (k k' : Kinematics) (m : Move) (dz ez : float) :
  well_formed k m -> note_z_not_homed k = Ok k' ->
  axes_d m !! 2 = Some dz -> end_pos m !! 2 = Some ez ->
  (truthy dz = false -> check_move k' m = check_move k m)
  /\ (truthy dz = true -> is_number ez = true ->
      violation k m 0 = false -> violation k m 1 = false ->
      check_move k' m = Raise must_home).
Proof.
  intros Hwf Hnote Hdz Hez. shape Hwf.
  unfold note_z_not_homed in Hnote. rewrite Hlim in Hnote. simpl in Hnote.
  injection Hnote as <-.
  rewrite Hd in Hdz. rewrite Hend in Hez. simpl in Hdz, Hez.
  injection Hdz as <-. injection Hez as <-.
  rewrite Hcm.
  rewrite (check_move_shape (set_limits k [l0; l1; sentinel]) m
             l0 l1 sentinel e0 e1 e2 d0 d1 d2 er dr eq_refl Hend Hd).
  clear Hcm Hce. split.
  - intros T. rewrite T. reflexivity.
  - intros T N V0 V1. rewrite <- Hv0, <- Hv1, V0, V1, T.
    rewrite (number_outside_sentinel _ N). reflexivity.
Qed.

Lemma note_z_not_homed_check_move_witness :
  exists k',
    note_z_not_homed
      (set_limits Sample.kin [(0, 200); (0, 200); (-5, 120)]%float) = Ok k'
    /\ check_move k' Sample.move_xz = Raise must_home.
Proof.
  eexists. split; [reflexivity|].
  apply (note_z_not_homed_check_move
           (set_limits Sample.kin [(0, 200); (0, 200); (-5, 120)]%float)
           _ Sample.move_xz 40 40);
    try reflexivity.
  unfold well_formed. simpl. lia.
Defined.

(** ** Setting the position, in general *)

Lemma set_position_from_cons (i : nat) (r : Rail) (rs : list Rail)
    (newpos : list float) (homing_axes : list nat) (lims : list (float * float)) :
  set_position_from i (r :: rs) newpos homing_axes lims
  = (lims1 ← (if bool_decide (i ∈ homing_axes)
              then assign lims i (get_range r) else Ok lims);
     '(rs', lims2) ← set_position_from (S i) rs newpos homing_axes lims1;
     Ok (rail_set_position newpos r :: rs', lims2)).
Proof. reflexivity. Qed.

(** The loop of [set_position] from rail number [i] on: with a limit for
    every rail it does not raise; every rail gets the position, the limit of
    a rail whose number is a homing axis becomes the range of the rail, and
    every other limit stays. *)
Lemma set_position_from_spec (newpos : list float) (homing_axes : list nat)
    (rs : list Rail) :
  forall (i : nat) (lims : list (float * float)),
    i + length rs <= length lims ->
    exists lims',
      set_position_from i rs newpos homing_axes lims
      = Ok (rail_set_position newpos <$> rs, lims')
      /\ length lims' = length lims
      /\ forall n,
           lims' !! n
           = if decide (i <= n) then
               match rs !! (n - i) with
               | Some r => if bool_decide (n ∈ homing_axes)
                           then Some (get_range r) else lims !! n
               | None => lims !! n
               end
             else lims !! n.
Proof.
  induction rs as [|r rs IH]; intros i lims Hlen.
  - exists lims. split; [reflexivity|]. split; [reflexivity|].
    intros n. destruct (decide (i <= n)); [|reflexivity].
    rewrite lookup_nil. reflexivity.
  - simpl in Hlen. rewrite set_position_from_cons.
    set (lims1 := if bool_decide (i ∈ homing_axes)
                  then <[i := get_range r]> lims else lims).
    assert (Hstep : (if bool_decide (i ∈ homing_axes)
                     then assign lims i (get_range r)
                     else Ok lims) = Ok lims1).
    { unfold lims1, assign. destruct (bool_decide (i ∈ homing_axes)); [|reflexivity].
      destruct (decide (i < length lims)); [reflexivity | lia]. }
    rewrite Hstep. clear Hstep.
    assert (Hlen1 : length lims1 = length lims).
    { unfold lims1. destruct (bool_decide (i ∈ homing_axes));
        [apply length_insert | reflexivity]. }
    destruct (IH (S i) lims1) as (lims' & Hrun & Hl' & Hlook); [lia|].
    exists lims'. simpl. rewrite Hrun.
    split; [reflexivity|]. split; [congruence|].
    intros n. rewrite Hlook.
    destruct (decide (S i <= n)) as [Hgt|Hle].
    + destruct (decide (i <= n)) as [_|]; [|lia].
      replace (n - i) with (S (n - S i)) by lia. simpl.
      assert (Hn : lims1 !! n = lims !! n).
      { unfold lims1. destruct (bool_decide (i ∈ homing_axes)); [|reflexivity].
        apply list_lookup_insert_ne. lia. }
      rewrite Hn. reflexivity.
    + destruct (decide (i <= n)) as [Hin|Hlt].
      * assert (n = i) as -> by lia. rewrite Nat.sub_diag. simpl.
        unfold lims1. destruct (bool_decide (i ∈ homing_axes)); [|reflexivity].
        apply list_lookup_insert_eq. lia.
      * unfold lims1. destruct (bool_decide (i ∈ homing_axes)); [|reflexivity].
        apply list_lookup_insert_ne. lia.
Qed.

Lemma set_position_spec (k : Kinematics) (newpos : list float)
    (homing_axes : list nat) :
  length (rails k) <= length (limits k) ->
  exists k',
    set_position k newpos homing_axes = Ok k'
    /\ rails k' = rail_set_position newpos <$> rails k
    /\ length (limits k') = length (limits k)
    /\ axes_min k' = axes_min k /\ axes_max k' = axes_max k
    /\ forall n,
         limits k' !! n
         = match rails k !! n with
           | Some r => if bool_decide (n ∈ homing_axes)
                       then Some (get_range r) else limits k !! n
           | None => limits k !! n
           end.
Proof.
  intros Hlen.
  destruct (set_position_from_spec newpos homing_axes (rails k) 0 (limits k))
    as (lims' & Hrun & Hl' & Hlook); [simpl; lia|].
  eexists. split.
  - unfold set_position. rewrite Hrun. reflexivity.
  - split; [reflexivity|]. split; [exact Hl'|].
    split; [reflexivity|]. split; [reflexivity|].
    intros n. simpl. rewrite Hlook.
    destruct (decide (0 <= n)); [|lia]. rewrite Nat.sub_0_r. reflexivity.
Qed.

(** X6.  [set_position], for any position and homing axes, on an object with a
    limit for every rail: it does not raise, every rail gets the position,
    the limit of each rail whose number is a homing axis becomes the range of
    that rail, and every other limit is left as it is.  A homing axis with no
    rail is ignored. *)
Theorem set_position_marks_homed (k : Kinematics) (newpos : list float)
    (homing_axes : list nat) :
  length (rails k) <= length (limits k) ->
  exists k',
    set_position k newpos homing_axes = Ok k'
    /\ rails k' = rail_set_position newpos <$> rails k
    /\ length (limits k') = length (limits k)
    /\ axes_min k' = axes_min k /\ axes_max k' = axes_max k
    /\ forall n,
         limits k' !! n
         = match rails k !! n with
           | Some r => if bool_decide (n ∈ homing_axes)
                       then Some (get_range r) else limits k !! n
           | None => limits k !! n
           end.
Proof. apply set_position_spec. Qed.

Lemma set_position_marks_homed_witness :
  exists k',
    set_position Sample.kin_z_homed [1; 2; 3; 0]%float [1; 7] = Ok k'
    /\ limits k' = [sentinel; (0, 200)%float; (-5, 120)%float].
Proof.
  destruct (set_position_marks_homed Sample.kin_z_homed [1; 2; 3; 0]%float [1; 7])
    as (k' & Hrun & _ & _ & _ & _ & _); [simpl; lia|].
  exists k'. split; [exact Hrun|].
  vm_compute in Hrun. injection Hrun as <-. reflexivity.
Defined.

(** ** Forward kinematics without a position *)

Lemma comprehension_first_error {A B} (f : A -> result B) (pre : list A) (x : A)
    (post : list A) (e : exn) :
  Forall (fun y => exists v, f y = Ok v) pre -> f x = Raise e ->
  comprehension f (pre ++ x :: post) = Raise e.
Proof.
  intros Hpre Hx. induction Hpre as [|y pre [v Hy] _ IH]; simpl.
  - rewrite Hx. reflexivity.
  - rewrite Hy. simpl. rewrite IH. reflexivity.
Qed.

(** X10.  When the positions lack the name of a rail, [calc_position] raises a
    [KeyError] with the name of the first such rail, in the order of the
    rails. *)
Theorem calc_position_missing_rail (k : Kinematics)
    (stepper_positions : gmap string float) (pre : list Rail) (r : Rail)
    (post : list Rail) :
  rails k = pre ++ r :: post ->
  Forall (fun r' => is_Some (stepper_positions !! get_name r')) pre ->
  stepper_positions !! get_name r = None ->
  calc_position k stepper_positions = Raise (KeyError (get_name r)).
Proof.
  intros Hr Hpre Hmiss. unfold calc_position. rewrite Hr.
  rewrite (comprehension_first_error _ pre r post (KeyError (get_name r))).
  - reflexivity.
  - eapply Forall_impl; [exact Hpre|]. intros r' [v Hv].
    exists v. unfold getitem. rewrite Hv. reflexivity.
  - unfold getitem. rewrite Hmiss. reflexivity.
Qed.

Lemma calc_position_missing_rail_witness :
  calc_position Sample.kin (delete "stepper_b" Sample.positions)
  = Raise (KeyError "stepper_b").
Proof.
  apply (calc_position_missing_rail Sample.kin _
           [setup_itersolve "corexy_stepper_alloc" "+" Sample.rail_a]
           (setup_itersolve "corexy_stepper_alloc" "-" Sample.rail_b)
           [setup_itersolve "cartesian_stepper_alloc" "z" Sample.rail_c]).
  - reflexivity.
  - constructor; [|constructor]. exists 10%float. reflexivity.
  - reflexivity.
Defined.

(** ** Homing that fails *)

Lemma home_axis_no_rail (outcome : HomeCall -> result unit) (k : Kinematics)
    (axis : nat) (calls : list HomeCall) :
  rails k !! axis = None \/ 4 <= axis ->
  home_axis outcome k axis calls = (calls, Raise IndexError).
Proof.
  intros H. unfold home_axis. rewrite lift_bind. unfold index.
  destruct (rails k !! axis) as [rail|] eqn:Hr; [|reflexivity].
  destruct H as [H|H]; [discriminate|].
  destruct (get_range rail) as [position_min position_max].
  rewrite lift_bind. unfold assign.
  destruct (decide (axis < length [None; None; None; None]))
    as [Hlt|]; [simpl in Hlt; lia | reflexivity].
Qed.

Lemma home_app (outcome : HomeCall -> result unit) (k : Kinematics)
    (axes1 axes2 : list nat) :
  forall calls,
    home outcome k (axes1 ++ axes2) calls
    = match home outcome k axes1 calls with
      | (calls', Ok _) => home outcome k axes2 calls'
      | (calls', Raise e) => (calls', Raise e)
      end.
Proof.
  induction axes1 as [|a axes1 IH]; intros calls; [reflexivity|].
  change ((a :: axes1) ++ axes2) with (a :: (axes1 ++ axes2)).
  rewrite !home_cons.
  destruct (home_axis outcome k a calls) as [calls' [[]|e]];
    [apply IH | reflexivity].
Qed.

Lemma home_run (outcome : HomeCall -> result unit)
    (k : Kinematics) (axes : list nat) (calls : list HomeCall) :
  Forall (fun a => a < 4 /\ is_Some (rails k !! a)) axes ->
  exists cs,
    Forall2 (fun a c => exists rail,
               rails k !! a = Some rail /\ c = homing_call rail a) axes cs
    /\ home outcome k axes calls
       = (calls ++ until_failure outcome cs, first_failure outcome cs).
Proof.
  intros Hax. revert calls.
  induction Hax as [|a axes [Ha [rail Hr]] _ IH]; intros calls.
  - exists []. split; [constructor|]. simpl. rewrite app_nil_r. reflexivity.
  - destruct (IH (calls ++ [homing_call rail a])) as (cs & Hcs & Hrun).
    exists (homing_call rail a :: cs). split.
    { constructor; [exists rail; split; auto | exact Hcs]. }
    rewrite home_cons, (home_axis_call outcome k a rail calls Ha Hr). simpl.
    destruct (outcome (homing_call rail a)) as [[]|e].
    + rewrite Hrun, <- app_assoc. reflexivity.
    + reflexivity.
Qed.

(** X11.  The result of [home]: with a rail for every axis, it issues the calls up
    to the first that fails and raises the exception of that call; it
    returns normally when no call fails. *)
Theorem home_raises_first_failure (outcome : HomeCall -> result unit)
    (k : Kinematics) (axes : list nat) (calls : list HomeCall) :
  Forall (fun a => a < 4 /\ is_Some (rails k !! a)) axes ->
  exists cs,
    Forall2 (fun a c => exists rail,
               rails k !! a = Some rail /\ c = homing_call rail a) axes cs
    /\ home outcome k axes calls
       = (calls ++ until_failure outcome cs, first_failure outcome cs).
Proof. apply home_run. Qed.

Lemma home_raises_first_failure_witness :
  home (fun c => match hc_homepos c !! 0 with
                 | Some None => Ok tt
                 | _ => Raise HomingFailure
                 end)
       Sample.kin [1; 0; 2] []
  = ([homing_call (setup_itersolve "corexy_stepper_alloc" "-" Sample.rail_b) 1;
      homing_call (setup_itersolve "corexy_stepper_alloc" "+" Sample.rail_a) 0],
     Raise HomingFailure).
Proof.
  assert (Hax : Forall (fun a => a < 4 /\ is_Some (rails Sample.kin !! a))
                  [1; 0; 2]).
  { repeat constructor; eexists; reflexivity. }
  destruct (home_raises_first_failure
              (fun c => match hc_homepos c !! 0 with
                        | Some None => Ok tt
                        | _ => Raise HomingFailure
                        end)
              Sample.kin [1; 0; 2] [] Hax) as (cs & Hcs & Hrun).
  rewrite Hrun.
  apply Forall2_cons_inv_l in Hcs as (c1 & cs1 & (r1 & Hr1 & ->) & Hcs & ->).
  apply Forall2_cons_inv_l in Hcs as (c0 & cs0 & (r0 & Hr0 & ->) & Hcs & ->).
  apply Forall2_cons_inv_l in Hcs as (c2 & cs2 & (r2 & Hr2 & ->) & Hcs & ->).
  apply Forall2_nil_inv_l in Hcs as ->.
  injection Hr1 as <-. injection Hr0 as <-. injection Hr2 as <-. reflexivity.
Defined.

(** X12.  An axis with no rail (or beyond the four slots of the position lists)
    makes [home] raise [IndexError]: the calls of the axes before it have
    been issued, and no call is issued for it or for the axes after it. *)
Theorem home_stops_at_missing_rail (outcome : HomeCall -> result unit)
    (k : Kinematics) (pre : list nat) (a : nat) (post : list nat)
    (calls : list HomeCall) :
  Forall (fun a' => a' < 4 /\ is_Some (rails k !! a')) pre ->
  (forall c, outcome c = Ok tt) ->
  rails k !! a = None \/ 4 <= a ->
  exists cs,
    Forall2 (fun a' c => exists rail,
               rails k !! a' = Some rail /\ c = homing_call rail a') pre cs
    /\ home outcome k (pre ++ a :: post) calls = (calls ++ cs, Raise IndexError).
Proof.
  intros Hpre Hok Ha.
  destruct (home_run outcome k pre calls Hpre) as (cs & Hcs & Hrun).
  exists cs. split; [exact Hcs|].
  assert (Hall : until_failure outcome cs = cs /\ first_failure outcome cs = Ok tt).
  { clear -Hok. induction cs as [|c cs [IH1 IH2]]; [split; reflexivity|].
    simpl. rewrite (Hok c), IH1, IH2. split; reflexivity. }
  destruct Hall as [Hu Hf]. rewrite Hu, Hf in Hrun.
  rewrite home_app, Hrun, home_cons, (home_axis_no_rail _ _ _ _ Ha).
  reflexivity.
Qed.

Lemma home_stops_at_missing_rail_witness :
  home (fun _ => Ok tt) Sample.kin [1; 4; 0] []
  = ([homing_call (setup_itersolve "corexy_stepper_alloc" "-" Sample.rail_b) 1],
     Raise IndexError).
Proof.
  assert (Hpre : Forall (fun a => a < 4 /\ is_Some (rails Sample.kin !! a)) [1]).
  { repeat constructor; eexists; reflexivity. }
  destruct (home_stops_at_missing_rail (fun _ => Ok tt) Sample.kin [1] 4 [0] []
              Hpre (fun _ => eq_refl) (or_introl eq_refl)) as (cs & Hcs & Hrun).
  change ([1; 4; 0]) with ([1] ++ 4 :: [0]). rewrite Hrun.
  apply Forall2_cons_inv_l in Hcs as (c1 & cs1 & (r1 & Hr1 & ->) & Hcs & ->).
  apply Forall2_nil_inv_l in Hcs as ->.
  injection Hr1 as <-. reflexivity.
Defined.

(** ** A freshly constructed object *)

(** X2.  A successful construction leaves every axis unhomed: the status reports
    no homed axis, and a move that displaces one of the three axes to a
    position that is a number is rejected with "Must home axis first". *)
Theorem init_starts_unhomed (toolhead : Toolhead) (config : Config)
    (tq : option nat) (axes_ids : list nat) (axis_set_letters : string)
    (w w' : World) (k : Kinematics) :
  __init__ toolhead config tq axes_ids axis_set_letters w = (w', Ok k) ->
  limits k = [sentinel; sentinel; sentinel]
  /\ (forall eventtime, homed_axes (get_status k eventtime) = "")
  /\ (forall (m : Move) (i : nat) (dx ex : float),
        3 <= length (end_pos m) -> 3 <= length (axes_d m) ->
        i < 3 -> axes_d m !! i = Some dx -> truthy dx = true ->
        end_pos m !! i = Some ex -> is_number ex = true ->
        check_move k m = Raise must_home).
Proof.
  intros H.
  apply init_ok_inv in H
    as (r0 & r1 & r2 & w1 & w2 & _ & _ & _ & _ & _ & _ & _ & Hl & _).
  split; [exact Hl|]. split.
  - intros eventtime.
    rewrite (homed_axes_shape k eventtime sentinel sentinel sentinel Hl).
    reflexivity.
  - intros m i dx ex. apply unhomed_rejects. exact Hl.
Qed.

Lemma init_starts_unhomed_witness :
  homed_axes (get_status Sample.kin 0) = ""
  /\ check_move Sample.kin Sample.move_z = Raise must_home.
Proof.
  destruct (init_starts_unhomed Sample.toolhead Sample.config None [3; 4; 5]
              "ABC" Sample.world
              (__init__ Sample.toolhead Sample.config None [3; 4; 5] "ABC"
                 Sample.world).1 Sample.kin)
    as (_ & Hst & Hmv); [vm_compute; reflexivity|].
  split; [apply Hst|].
  apply (Hmv Sample.move_z 2 5%float 5%float); try reflexivity; simpl; lia.
Defined.

(** ** The effects of the constructor on the collaborators *)

(** A loop of registrations touches nothing but the endstops, whether or not
    it raises. *)
Lemma register_with_frame (rs : list Rail) (i : nat) (ss : list string) :
  forall (w w' : World) (r : result unit),
    register_with rs i ss w = (w', r) ->
    stepper_trapq w' = stepper_trapq w
    /\ step_generators w' = step_generators w
    /\ event_handlers w' = event_handlers w.
Proof.
  unfold register_with.
  induction ss as [|s ss IH]; intros w w' r H.
  - injection H as <- _. auto.
  - simpl in H. rewrite bind_M in H.
    destruct (register_one rs i s w) as [w1 [[]|e]] eqn:Hone.
    + apply register_one_ok in Hone as (r1 & e1 & _ & _ & ->).
      destruct (IH _ _ _ H) as (H1 & H2 & H3). simpl in H1, H2, H3. auto.
    + injection H as <- _. unfold register_one in Hone.
      rewrite lift_bind in Hone.
      destruct (index rs i) as [r1|]; [|injection Hone as <- _; auto].
      rewrite lift_bind in Hone.
      destruct (index (get_endstops r1) 0) as [e1|];
        [discriminate | injection Hone as <- _; auto].
Qed.

(** A loop of registrations that returns has added the steppers, in order,
    to the steppers of the first endstop of the rail, and to no other
    endstop. *)
Lemma register_with_exact (rs : list Rail) (i : nat) (r : Rail) (ss : list string) :
  rs !! i = Some r ->
  forall (w w' : World),
    register_with rs i ss w = (w', Ok tt) ->
    forall e, registered w' e
              = registered w e
                ++ (if decide (first_endstop r = Some e) then ss else []).
Proof.
  intros Hr. unfold register_with.
  induction ss as [|s ss IH]; intros w w' H e.
  - injection H as <-. destruct (decide _); rewrite app_nil_r; reflexivity.
  - simpl in H. rewrite bind_M in H.
    destruct (register_one rs i s w) as [w1 [[]|err]] eqn:Hone; [|discriminate].
    apply register_one_ok in Hone as (r1 & e1 & Hr1 & He1 & ->).
    rewrite Hr in Hr1. injection Hr1 as <-.
    rewrite (IH _ _ H e), registered_add_stepper.
    unfold first_endstop. rewrite He1. simpl.
    destruct (decide (e1.1 = e)) as [<-|Hne].
    + destruct (decide (Some e1.1 = Some e1.1)); [|congruence].
      rewrite <- app_assoc. reflexivity.
    + destruct (decide (Some e1.1 = Some e)); [congruence | reflexivity].
Qed.

(** Attaching the steppers [ss]: each gets the trapq and has its step
    generator registered, in order; nothing else changes. *)
Lemma attach_steppers_effect (tq : nat) (ss : list string) :
  forall w : World,
    exists w',
      for_eachM ss (fun s => _ ← set_trapq s tq; register_step_generator s) w
      = (w', Ok tt)
      /\ endstop_steppers w' = endstop_steppers w
      /\ event_handlers w' = event_handlers w
      /\ step_generators w' = step_generators w ++ ss
      /\ (forall s, s ∈ ss -> stepper_trapq w' !! s = Some tq)
      /\ (forall s, s ∉ ss -> stepper_trapq w' !! s = stepper_trapq w !! s).
Proof.
  induction ss as [|s ss IH]; intros w.
  - exists w. split; [reflexivity|]. split; [reflexivity|].
    split; [reflexivity|]. split; [symmetry; apply app_nil_r|].
    split; [|reflexivity]. intros s Hs. inversion Hs.
  - simpl. rewrite bind_M. simpl.
    match goal with |- context [for_eachM ss ?body ?w1] =>
      destruct (IH w1) as (w' & Hrun & He & Hh & Hg & Hin & Hout) end.
    exists w'. rewrite Hrun. simpl in He, Hh, Hg, Hout.
    split; [reflexivity|]. split; [exact He|]. split; [exact Hh|].
    split; [rewrite Hg, <- app_assoc; reflexivity|]. split.
    + intros s' Hs'. destruct (decide (s' ∈ ss)) as [Hmem|Hnot].
      * apply Hin, Hmem.
      * apply elem_of_cons in Hs' as [->|Hs']; [|contradiction].
        rewrite (Hout s Hnot). apply lookup_insert_eq.
    + intros s' Hs'. apply not_elem_of_cons in Hs' as [Hne Hnot].
      rewrite (Hout s' Hnot). apply lookup_insert_ne. congruence.
Qed.

(** What a successful construction has computed and done, in full. *)
Lemma init_ok_full (toolhead : Toolhead) (config : Config) (tq : option nat)
    (axes_ids : list nat) (axis_set_letters : string) (w w' : World)
    (k : Kinematics) :
  __init__ toolhead config tq axes_ids axis_set_letters w = (w', Ok k) ->
  exists a0 names r0 r1 r2 w1 w2 w3 vz az,
    length axes_ids = 3 /\ String.length axis_set_letters = 3
    /\ axes_ids !! 0 = Some a0
    /\ comprehension (index (chars "XYZABCUVW"))
         (list_difference (seq (3 * Nat.div a0 3) 3) axes_ids) = Ok names
    /\ comprehension (fun n => LookupMultiRail config ("stepper_" +:+ n))
         (chars (lower axis_set_letters)) = Ok [r0; r1; r2]
    /\ register_with [r0; r1; r2] 0 (rail_get_steppers r1) w = (w1, Ok tt)
    /\ register_with [r0; r1; r2] 1 (rail_get_steppers r0) w1 = (w2, Ok tt)
    /\ for_eachM (steppers_of [r0; r1; r2])
         (fun s => _ ← set_trapq s (th_get_trapq toolhead None);
                   register_step_generator s) w2 = (w3, Ok tt)
    /\ w' = (register_event_handler "stepper_enable:motor_off" w3).1
    /\ k = reset_limits
             {| axis_config := axes_ids; axis_names := axis_set_letters;
                axis_count := String.length axis_set_letters;
                axis := seq (3 * Nat.div a0 3) 3;
                dummy_axes := list_difference (seq (3 * Nat.div a0 3) 3) axes_ids;
                dummy_axes_names := names;
                toolhead_axis_count := th_axis_count toolhead;
                trapq := match tq with
                         | None => th_get_trapq toolhead (Some axis_set_letters)
                         | Some t => t
                         end;
                rails := [setup_itersolve "corexy_stepper_alloc" "+" r0;
                          setup_itersolve "corexy_stepper_alloc" "-" r1;
                          setup_itersolve "cartesian_stepper_alloc" "z" r2];
                max_z_velocity := vz; max_z_accel := az;
                limits := [];
                axes_min := {| cx := (get_range r0).1; cy := (get_range r1).1;
                               cz := (get_range r2).1; ce := 0 |};
                axes_max := {| cx := (get_range r0).2; cy := (get_range r1).2;
                               cz := (get_range r2).2; ce := 0 |} |}.
Proof.
  unfold __init__. intros H.
  rewrite lift_bind in H.
  destruct (decide (length axes_ids ≠ String.length axis_set_letters))
    as [|Hlen]; [discriminate|].
  rewrite lift_bind in H.
  destruct (index axes_ids 0) as [a0|] eqn:Ha0; [|discriminate].
  rewrite lift_bind in H.
  destruct (comprehension (index (chars "XYZABCUVW")) _) as [names|] eqn:Hnames;
    [|discriminate].
  rewrite lift_bind in H.
  destruct (comprehension (fun n => LookupMultiRail config ("stepper_" +:+ n)) _)
    as [rs|] eqn:Hrs; [|discriminate].
  pose proof (comprehension_length _ _ _ Hrs) as Hn.
  rewrite chars_length, lower_length in Hn.
  destruct rs as [|r0 [|r1 [|r2 [|r3 rs]]]];
    rewrite ?index_S, ?index_0, ?index_nil in H;
    rewrite ?lift_Ok_bind in H; try discriminate.
  all: rewrite bind_M in H;
    destruct (register_with _ 0 _ w) as [w1 [[]|]] eqn:Hreg1; [|discriminate];
    rewrite ?lift_Ok_bind in H;
    rewrite bind_M in H;
    destruct (register_with _ 1 _ w1) as [w2 [[]|]] eqn:Hreg2; [|discriminate];
    rewrite lift_bind in H;
    destruct (setup_rail _ 0 _ _) as [rs1|] eqn:Hs0; [|discriminate];
    apply setup_rail_inv in Hs0 as (x0 & Hx0 & ->);
    simpl in Hx0; injection Hx0 as <-;
    rewrite lift_bind in H;
    destruct (setup_rail _ 1 _ _) as [rs2|] eqn:Hs1; [|discriminate];
    apply setup_rail_inv in Hs1 as (x1 & Hx1 & ->);
    simpl in Hx1; injection Hx1 as <-;
    rewrite lift_bind in H;
    destruct (setup_rail _ 2 _ _) as [rs3|] eqn:Hs2; [|discriminate];
    apply setup_rail_inv in Hs2 as (x2 & Hx2 & ->);
    simpl in Hx2; try discriminate; injection Hx2 as <-.
  all: rewrite bind_M in H;
    match type of H with context [for_eachM ?ss ?body ?w0] =>
      destruct (attach_steppers_effect (th_get_trapq toolhead None) ss w0)
        as (w3 & Hrun & _)
    end;
    rewrite Hrun in H; rewrite bind_M in H;
    unfold register_event_handler at 1 in H;
    destruct (th_get_max_velocity toolhead) as [max_velocity max_accel];
    rewrite lift_bind in H;
    destruct (getfloat "max_z_velocity" _ _ _ _) as [vz|]; [|discriminate];
    rewrite lift_bind in H;
    destruct (getfloat "max_z_accel" _ _ _ _) as [az|]; [|discriminate];
    rewrite lift_bind in H;
    destruct (make_coord _) as [cmin|] eqn:Hmin; [|discriminate];
    simpl in Hmin; try discriminate.
  injection Hmin as <-. rewrite lift_bind in H.
  destruct (make_coord _) as [cmax|] eqn:Hmax; [|discriminate].
  simpl in Hmax. injection Hmax as <-.
  injection H as <- <-.
  unfold index in Ha0. destruct (axes_ids !! 0) as [a|] eqn:Hlook; [|discriminate].
  injection Ha0 as ->.
  exists a0, names, r0, r1, r2, w1, w2, w3, vz, az.
  split; [simpl in Hn; lia|]. split; [simpl in Hn; lia|].
  split; [reflexivity|]. split; [exact Hnames|]. split; [reflexivity|].
  split; [exact Hreg1|]. split; [exact Hreg2|]. split; [exact Hrun|].
  split; reflexivity.
Qed.

(** X17.  The constructor registers with each endstop the steppers of the other
    rail of the pair when it is the first endstop of a rail of the pair, and
    nothing else: no stepper is removed, and no other endstop changes. *)
Theorem init_registers_exactly (toolhead : Toolhead) (config : Config)
    (tq : option nat) (axes_ids : list nat) (axis_set_letters : string)
    (w w' : World) (k : Kinematics) :
  __init__ toolhead config tq axes_ids axis_set_letters w = (w', Ok k) ->
  exists r0 r1 r2,
    rails k = [r0; r1; r2]
    /\ forall e,
         registered w' e
         = registered w e
           ++ (if decide (first_endstop r0 = Some e)
               then rail_get_steppers r1 else [])
           ++ (if decide (first_endstop r1 = Some e)
               then rail_get_steppers r0 else []).
Proof.
  intros H.
  apply init_ok_full in H
    as (a0 & names & r0 & r1 & r2 & w1 & w2 & w3 & vz & az
        & _ & _ & _ & _ & _ & Hreg1 & Hreg2 & Hrun & -> & ->).
  eexists _, _, _. split; [reflexivity|]. intros e.
  destruct (attach_steppers_effect (th_get_trapq toolhead None)
              (steppers_of [r0; r1; r2]) w2) as (w3' & Hrun' & He & _).
  rewrite Hrun in Hrun'. injection Hrun' as <-.
  assert (Hw : registered (register_event_handler "stepper_enable:motor_off" w3).1 e
               = registered w2 e)
    by (unfold registered; simpl; rewrite He; reflexivity).
  rewrite Hw.
  rewrite (register_with_exact [r0; r1; r2] 1 r1 _ eq_refl _ _ Hreg2 e).
  rewrite (register_with_exact [r0; r1; r2] 0 r0 _ eq_refl _ _ Hreg1 e).
  rewrite <- app_assoc. reflexivity.
Qed.

Lemma init_registers_exactly_witness :
  exists w',
    __init__ Sample.toolhead Sample.config None [3; 4; 5] "ABC" Sample.world
    = (w', Ok Sample.kin)
    /\ registered w' 10 = ["stepper_b"]
    /\ registered w' 11 = ["stepper_a"; "stepper_a1"]
    /\ registered w' 12 = [].
Proof.
  set (w' := (__init__ Sample.toolhead Sample.config None [3; 4; 5] "ABC"
                Sample.world).1).
  assert (H : __init__ Sample.toolhead Sample.config None [3; 4; 5] "ABC"
                Sample.world = (w', Ok Sample.kin))
    by (vm_compute; reflexivity).
  clearbody w'.
  destruct (init_registers_exactly _ _ _ _ _ _ _ _ H) as (r0 & r1 & r2 & Hr & He).
  simpl in Hr. injection Hr as <- <- <-.
  exists w'. split; [exact H|].
  split; [|split]; rewrite He; reflexivity.
Defined.

(** X18.  After a construction every stepper of the kinematics has been given the
    trapq of the toolhead and has had its step generator registered, once
    and in the order of [get_steppers]; one handler has been registered, for
    the motor-off event. *)
Theorem init_attaches_steppers (toolhead : Toolhead) (config : Config)
    (tq : option nat) (axes_ids : list nat) (axis_set_letters : string)
    (w w' : World) (k : Kinematics) :
  __init__ toolhead config tq axes_ids axis_set_letters w = (w', Ok k) ->
  step_generators w' = step_generators w ++ get_steppers k
  /\ event_handlers w' = event_handlers w ++ ["stepper_enable:motor_off"]
  /\ forall s, s ∈ get_steppers k ->
       stepper_trapq w' !! s = Some (th_get_trapq toolhead None).
Proof.
  intros H.
  apply init_ok_full in H
    as (a0 & names & r0 & r1 & r2 & w1 & w2 & w3 & vz & az
        & _ & _ & _ & _ & _ & Hreg1 & Hreg2 & Hrun & -> & ->).
  destruct (attach_steppers_effect (th_get_trapq toolhead None)
              (steppers_of [r0; r1; r2]) w2)
    as (w3' & Hrun' & _ & Hh & Hg & Hin & _).
  rewrite Hrun in Hrun'. injection Hrun' as <-.
  destruct (register_with_frame _ _ _ _ _ _ Hreg1) as (_ & Hg1 & Hh1).
  destruct (register_with_frame _ _ _ _ _ _ Hreg2) as (_ & Hg2 & Hh2).
  change (get_steppers _) with (steppers_of [r0; r1; r2]).
  split; [simpl; rewrite Hg, Hg2, Hg1; reflexivity|].
  split; [simpl; rewrite Hh, Hh2, Hh1; reflexivity|].
  intros s Hs. simpl. apply Hin, Hs.
Qed.

Lemma init_attaches_steppers_witness :
  exists w',
    __init__ Sample.toolhead Sample.config None [3; 4; 5] "ABC" Sample.world
    = (w', Ok Sample.kin)
    /\ step_generators w' = ["stepper_a"; "stepper_a1"; "stepper_b"; "stepper_c"]
    /\ event_handlers w' = ["stepper_enable:motor_off"].
Proof.
  set (w' := (__init__ Sample.toolhead Sample.config None [3; 4; 5] "ABC"
                Sample.world).1).
  assert (H : __init__ Sample.toolhead Sample.config None [3; 4; 5] "ABC"
                Sample.world = (w', Ok Sample.kin))
    by (vm_compute; reflexivity).
  clearbody w'.
  destruct (init_attaches_steppers _ _ _ _ _ _ _ _ H) as (Hg & Hh & _).
  exists w'. split; [exact H|]. split; [exact Hg | exact Hh].
Defined.

(** ** What the constructor computes *)

Lemma comprehension_Forall2 {A B} (f : A -> result B) (l : list A) :
  forall l', comprehension f l = Ok l' -> Forall2 (fun x y => f x = Ok y) l l'.
Proof.
  induction l as [|x l IH]; intros l' H; simpl in H.
  - injection H as <-. constructor.
  - destruct (f x) as [y|e] eqn:Hx; [|discriminate]. simpl in H.
    destruct (comprehension f l) as [ys|e]; [|discriminate]. simpl in H.
    injection H as <-. constructor; [exact Hx | apply IH; reflexivity].
Qed.

(** X16.  The rails of a constructed object are the rails of the sections
    [stepper_] followed by the lower-cased letter, in the order of the
    letters, bound to the solvers: the first to the corexy solver with [+],
    the second to the corexy solver with [-], the third to the cartesian
    solver with [z]. *)
Theorem init_binds_rails (toolhead : Toolhead) (config : Config)
    (tq : option nat) (axes_ids : list nat) (axis_set_letters : string)
    (w w' : World) (k : Kinematics) :
  __init__ toolhead config tq axes_ids axis_set_letters w = (w', Ok k) ->
  exists c0 c1 c2,
    Forall2 (fun n c => LookupMultiRail config ("stepper_" +:+ n) = Ok c)
      (chars (lower axis_set_letters)) [c0; c1; c2]
    /\ rails k = [setup_itersolve "corexy_stepper_alloc" "+" c0;
                  setup_itersolve "corexy_stepper_alloc" "-" c1;
                  setup_itersolve "cartesian_stepper_alloc" "z" c2]
    /\ axis_config k = axes_ids /\ axis_names k = axis_set_letters
    /\ axis_count k = String.length axis_set_letters.
Proof.
  intros H.
  apply init_ok_full in H
    as (a0 & names & r0 & r1 & r2 & w1 & w2 & w3 & vz & az
        & _ & _ & _ & _ & Hrs & _ & _ & _ & _ & ->).
  exists r0, r1, r2. split; [|split; [|split; [|split]]; reflexivity].
  apply (comprehension_Forall2 _ _ _ Hrs).
Qed.

Lemma init_binds_rails_witness :
  exists c0 c1 c2,
    Forall2 (fun n c => LookupMultiRail Sample.config ("stepper_" +:+ n) = Ok c)
      (chars (lower "ABC")) [c0; c1; c2]
    /\ rails Sample.kin = [setup_itersolve "corexy_stepper_alloc" "+" c0;
                           setup_itersolve "corexy_stepper_alloc" "-" c1;
                           setup_itersolve "cartesian_stepper_alloc" "z" c2]
    /\ axis_config Sample.kin = [3; 4; 5] /\ axis_names Sample.kin = "ABC"
    /\ axis_count Sample.kin = String.length "ABC".
Proof.
  apply (init_binds_rails Sample.toolhead Sample.config None [3; 4; 5] "ABC"
           Sample.world
           (__init__ Sample.toolhead Sample.config None [3; 4; 5] "ABC"
              Sample.world).1 Sample.kin).
  vm_compute. reflexivity.
Defined.

Lemma seq_three (n : nat) : seq n 3 = [n; n + 1; n + 2].
Proof. simpl. repeat f_equal; lia. Qed.

(** X15.  The expanded axes of a constructed object are the three indexes of the
    triplet of the first configured index, which is one of them; the dummy
    axes are those of the three that are not configured, and their names are
    the letters of "XYZABCUVW" at their indexes. *)
Theorem init_expands_triplet (toolhead : Toolhead) (config : Config)
    (tq : option nat) (axes_ids : list nat) (axis_set_letters : string)
    (w w' : World) (k : Kinematics) :
  __init__ toolhead config tq axes_ids axis_set_letters w = (w', Ok k) ->
  exists a0,
    axes_ids !! 0 = Some a0
    /\ axis k = [3 * Nat.div a0 3; 3 * Nat.div a0 3 + 1; 3 * Nat.div a0 3 + 2]
    /\ a0 ∈ axis k
    /\ (forall i, i ∈ dummy_axes k <-> i ∈ axis k /\ i ∉ axes_ids)
    /\ Forall2 (fun i n => chars "XYZABCUVW" !! i = Some n)
         (dummy_axes k) (dummy_axes_names k).
Proof.
  intros H.
  apply init_ok_full in H
    as (a0 & names & r0 & r1 & r2 & w1 & w2 & w3 & vz & az
        & _ & _ & Ha0 & Hnames & _ & _ & _ & _ & _ & ->).
  exists a0. unfold reset_limits, set_limits. cbn [axis dummy_axes dummy_axes_names].
  split; [exact Ha0|]. split; [apply seq_three|]. split; [|split].
  - apply elem_of_seq.
    pose proof (Nat.div_mod_eq a0 3) as Hdm.
    pose proof (Nat.mod_upper_bound a0 3) as Hub. lia.
  - intros i. apply list_elem_of_difference.
  - apply comprehension_Forall2 in Hnames.
    eapply Forall2_impl; [exact Hnames|].
    intros i n Hi. unfold index in Hi. cbv beta in Hi.
    destruct (chars "XYZABCUVW" !! i) as [c|]; [|discriminate].
    injection Hi as ->. reflexivity.
Qed.

Lemma init_expands_triplet_witness :
  exists a0,
    [3; 4; 5] !! 0 = Some a0
    /\ axis Sample.kin = [3 * Nat.div a0 3; 3 * Nat.div a0 3 + 1; 3 * Nat.div a0 3 + 2]
    /\ a0 ∈ axis Sample.kin
    /\ (forall i, i ∈ dummy_axes Sample.kin <-> i ∈ axis Sample.kin /\ i ∉ [3; 4; 5])
    /\ Forall2 (fun i n => chars "XYZABCUVW" !! i = Some n)
         (dummy_axes Sample.kin) (dummy_axes_names Sample.kin).
Proof.
  apply (init_expands_triplet Sample.toolhead Sample.config None [3; 4; 5] "ABC"
           Sample.world
           (__init__ Sample.toolhead Sample.config None [3; 4; 5] "ABC"
              Sample.world).1 Sample.kin).
  vm_compute. reflexivity.
Defined.

(** ** Construction that fails *)

Lemma init_length_mismatch_witness :
  __init__ Sample.toolhead Sample.config None [3; 4] "ABC" Sample.world
  = (Sample.world,
     Raise (Exception (mismatch_msg [3; 4] "ABC")))
  /\ contains (mismatch_msg [3; 4] "ABC") "(3, 4)"
  /\ contains (mismatch_msg [3; 4] "ABC") "ABC".
Proof.
  apply (init_length_mismatch Sample.toolhead Sample.config None [3; 4] "ABC"
           Sample.world).
  simpl. lia.
Defined.

(** X14.  The names of the dummy axes are read from the nine letters of
    "XYZABCUVW": with a first index of 9 or more, that is from the fourth
    triplet on, a slot of the triplet that is not configured makes the
    constructor raise [IndexError], before it acts on any collaborator. *)
Theorem init_dummy_axis_beyond_letters (toolhead : Toolhead) (config : Config)
    (tq : option nat) (axes_ids : list nat) (axis_set_letters : string)
    (w : World) (a0 i : nat) :
  length axes_ids = String.length axis_set_letters ->
  axes_ids !! 0 = Some a0 -> 9 <= a0 ->
  i ∈ seq (3 * Nat.div a0 3) 3 -> i ∉ axes_ids ->
  __init__ toolhead config tq axes_ids axis_set_letters w = (w, Raise IndexError).
Proof.
  intros Hlen Ha0 H9 Hi Hni. unfold __init__.
  rewrite lift_bind.
  destruct (decide (length axes_ids ≠ String.length axis_set_letters));
    [contradiction|].
  assert (Hidx : index axes_ids 0 = Ok a0) by (unfold index; rewrite Ha0; reflexivity).
  rewrite Hidx, lift_Ok_bind, lift_bind.
  assert (Hd : i ∈ list_difference (seq (3 * Nat.div a0 3) 3) axes_ids)
    by (apply list_elem_of_difference; split; assumption).
  destruct (list_difference (seq (3 * Nat.div a0 3) 3) axes_ids)
    as [|x d] eqn:Hdiff; [inversion Hd|].
  assert (Hx : 9 <= x).
  { assert (Hxin : x ∈ list_difference (seq (3 * Nat.div a0 3) 3) axes_ids)
      by (rewrite Hdiff; left).
    apply list_elem_of_difference in Hxin as [Hxs _].
    apply elem_of_seq in Hxs.
    pose proof (Nat.div_mod_eq a0 3) as Hdm.
    pose proof (Nat.mod_upper_bound a0 3) as Hub. lia. }
  assert (Hnone : index (chars "XYZABCUVW") x = Raise IndexError).
  { unfold index.
    rewrite (lookup_ge_None_2 (chars "XYZABCUVW") x) by (simpl; lia).
    reflexivity. }
  change (comprehension (index (chars "XYZABCUVW")) (x :: d))
    with (y ← index (chars "XYZABCUVW") x;
          ys ← comprehension (index (chars "XYZABCUVW")) d; Ok (y :: ys)).
  rewrite Hnone. reflexivity.
Qed.

Lemma init_dummy_axis_beyond_letters_witness :
  __init__ Sample.toolhead Sample.config None [9; 10; 12] "ABC" Sample.world
  = (Sample.world, Raise IndexError).
Proof.
  apply (init_dummy_axis_beyond_letters Sample.toolhead Sample.config None
           [9; 10; 12] "ABC" Sample.world 9 11); try reflexivity; try lia.
  - apply elem_of_seq. simpl. lia.
  - intros Hin. apply list_elem_of_In in Hin. simpl in Hin.
    destruct Hin as [H|[H|[H|[]]]]; discriminate.
Defined.

(** ** The states an object goes through *)

Lemma reachable_inv (k : Kinematics) :
  reachable k ->
  length (rails k) = 3 /\ length (limits k) = 3
  /\ forall i lim,
       limits k !! i = Some lim ->
       lim = sentinel \/ exists r, rails k !! i = Some r /\ lim = get_range r.
Proof.
  induction 1 as [toolhead config tq axes_ids letters w w' k Hinit
                 | k newpos homing_axes k' _ (Hr & Hl & Hinv) Hset
                 | k k' _ (Hr & Hl & Hinv) Hnote
                 | k print_time _ (Hr & Hl & Hinv)].
  - apply init_ok_inv in Hinit
      as (r0 & r1 & r2 & w1 & w2 & _ & _ & _ & _ & _ & _ & Hrails & Hlims & _).
    rewrite Hrails, Hlims. split; [reflexivity|]. split; [reflexivity|].
    intros [|[|[|i]]] lim Hlim; simpl in Hlim; try discriminate;
      injection Hlim as <-; left; reflexivity.
  - destruct (set_position_spec k newpos homing_axes)
      as (k1 & Hrun & Hr1 & Hl1 & _ & _ & Hlook); [lia|].
    rewrite Hset in Hrun. injection Hrun as <-.
    split; [rewrite Hr1, length_fmap; exact Hr|]. split; [congruence|].
    intros i lim Hlim. rewrite Hlook in Hlim. rewrite Hr1, list_lookup_fmap.
    destruct (rails k !! i) as [r|] eqn:Hri.
    + destruct (bool_decide (i ∈ homing_axes)).
      * injection Hlim as <-. right. exists (rail_set_position newpos r).
        split; reflexivity.
      * destruct (Hinv i lim Hlim) as [->|(r' & Hr' & ->)]; [left; reflexivity|].
        rewrite Hri in Hr'. injection Hr' as <-.
        right. exists (rail_set_position newpos r). split; reflexivity.
    + destruct (Hinv i lim Hlim) as [->|(r' & Hr' & _)];
        [left; reflexivity | congruence].
  - unfold note_z_not_homed, assign in Hnote.
    destruct (decide (2 < length (limits k))); [|discriminate].
    simpl in Hnote. injection Hnote as <-. simpl.
    split; [exact Hr|]. split; [rewrite length_insert; exact Hl|].
    intros i lim Hlim. destruct (decide (i = 2)) as [->|Hne].
    + rewrite list_lookup_insert_eq in Hlim by lia.
      injection Hlim as <-. left. reflexivity.
    + rewrite list_lookup_insert_ne in Hlim by congruence.
      apply Hinv, Hlim.
  - split; [exact Hr|]. split; [reflexivity|].
    intros [|[|[|i]]] lim Hlim; simpl in Hlim; try discriminate;
      injection Hlim as <-; left; reflexivity.
Qed.

(** A constructed object has three rails, whatever it went through: [home]
    raises at the first axis of index 3 or more, as every axis of a second
    triplet is. *)
Lemma home_beyond_rails (outcome : HomeCall -> result unit) (k : Kinematics)
    (a : nat) (post : list nat) (calls : list HomeCall) :
  reachable k -> 3 <= a ->
  home outcome k (a :: post) calls = (calls, Raise IndexError).
Proof.
  intros Hk Ha. destruct (reachable_inv k Hk) as (Hr & _).
  rewrite home_cons, home_axis_no_rail; [reflexivity|].
  left. apply lookup_ge_None. lia.
Qed.

(** X9.  In every state an object goes through (from its construction, by
    [set_position], [note_z_not_homed] and the motor-off handler) there are
    three rails and three limits, and the limit of a slot is either the
    sentinel or the range of the rail of that slot; so [set_position] and
    [note_z_not_homed] never raise on such a state. *)
Theorem reachable_limits (k : Kinematics) :
  reachable k ->
  length (rails k) = 3 /\ length (limits k) = 3
  /\ (forall i lim,
        limits k !! i = Some lim ->
        lim = sentinel \/ exists r, rails k !! i = Some r /\ lim = get_range r)
  /\ (forall newpos homing_axes,
        exists k', set_position k newpos homing_axes = Ok k')
  /\ (exists k', note_z_not_homed k = Ok k').
Proof.
  intros H. destruct (reachable_inv k H) as (Hr & Hl & Hinv).
  split; [exact Hr|]. split; [exact Hl|]. split; [exact Hinv|]. split.
  - intros newpos homing_axes.
    destruct (set_position_spec k newpos homing_axes) as (k' & Hrun & _); [lia|].
    exists k'. exact Hrun.
  - unfold note_z_not_homed, assign.
    destruct (decide (2 < length (limits k))); [|lia].
    eexists. reflexivity.
Qed.

Lemma reachable_limits_witness :
  length (rails Sample.kin) = 3 /\ length (limits Sample.kin) = 3
  /\ (exists k', set_position Sample.kin [0; 0; 0; 0]%float [0; 1; 2] = Ok k')
  /\ (exists k', note_z_not_homed Sample.kin = Ok k').
Proof.
  destruct (reachable_limits Sample.kin) as (Hr & Hl & _ & Hset & Hnote).
  - apply (reach_init Sample.toolhead Sample.config None [3; 4; 5] "ABC"
             Sample.world
             (__init__ Sample.toolhead Sample.config None [3; 4; 5] "ABC"
                Sample.world).1 Sample.kin).
    vm_compute. reflexivity.
  - split; [exact Hr|]. split; [exact Hl|]. split; [apply Hset | exact Hnote].
Defined.

(** ** A homed machine *)

(** X5.  Homing the three axes and then checking a move: after [set_position]
    with the homing axes 0, 1 and 2, the limits are the ranges of the rails,
    and a move whose end position lies within the range of each rail is
    accepted. *)
Theorem homed_accepts_within_range (k : Kinematics) (newpos : list float)
    (m : Move) (r0 r1 r2 : Rail) (x y z : float) :
  rails k = [r0; r1; r2] -> length (limits k) = 3 ->
  take 3 (end_pos m) = [x; y; z] -> 3 <= length (axes_d m) ->
  ((get_range r0).1 <=? x)%float = true -> (x <=? (get_range r0).2)%float = true ->
  ((get_range r1).1 <=? y)%float = true -> (y <=? (get_range r1).2)%float = true ->
  ((get_range r2).1 <=? z)%float = true -> (z <=? (get_range r2).2)%float = true ->
  exists k' m',
    set_position k newpos [0; 1; 2] = Ok k'
    /\ limits k' = [get_range r0; get_range r1; get_range r2]
    /\ check_move k' m = Ok m'.
Proof.
  intros Hr Hl Htake Hdl Hx0 Hx1 Hy0 Hy1 Hz0 Hz1.
  destruct (limits k) as [|l0 [|l1 [|l2 [|]]]] eqn:Hlims; simpl in Hl; try lia.
  assert (Hset : set_position k newpos [0; 1; 2]
                 = Ok (set_limits
                         (set_rails k (rail_set_position newpos <$> [r0; r1; r2]))
                         [get_range r0; get_range r1; get_range r2])).
  { unfold set_position. rewrite Hr, Hlims. reflexivity. }
  assert (Hlen : 3 <= length (end_pos m)).
  { apply (f_equal length) in Htake. rewrite length_take in Htake.
    change (length [x; y; z]) with 3 in Htake. lia. }
  destruct (end_pos m) as [|e0 [|e1 [|e2 er]]] eqn:Hend; simpl in Hlen; try lia.
  simpl in Htake. injection Htake as -> -> ->.
  destruct (within_accepted
              (set_limits
                 (set_rails k (rail_set_position newpos <$> [r0; r1; r2]))
                 [get_range r0; get_range r1; get_range r2]) m)
    as [m' Hm'].
  - unfold well_formed. rewrite Hend. simpl. lia.
  - intros [|[|[|i]]] ex lim Hi Hex Hlim; try lia; rewrite Hend in Hex;
      simpl in Hex, Hlim; injection Hex as <-; injection Hlim as <-;
      split; assumption.
  - eexists _, m'. split; [exact Hset|]. split; [reflexivity|]. exact Hm'.
Qed.

Lemma homed_accepts_within_range_witness :
  exists k' m',
    set_position Sample.kin [0; 0; 0; 0]%float [0; 1; 2] = Ok k'
    /\ limits k' = [(0, 200); (0, 200); (-5, 120)]%float
    /\ check_move k' Sample.move_xz = Ok m'.
Proof.
  apply (homed_accepts_within_range Sample.kin [0; 0; 0; 0]%float Sample.move_xz
           (setup_itersolve "corexy_stepper_alloc" "+" Sample.rail_a)
           (setup_itersolve "corexy_stepper_alloc" "-" Sample.rail_b)
           (setup_itersolve "cartesian_stepper_alloc" "z" Sample.rail_c)
           30 0 40); try reflexivity.
  simpl. lia.
Defined.

(** ** Loading with the default axes *)

(** X19.  [load_kinematics] with no axes given constructs for the indexes 0, 1, 2
    and the letters "XYZ": the rails are those of the sections [stepper_x],
    [stepper_y] and [stepper_z], in this order, the expanded axes are 0, 1, 2
    and there is no dummy axis. *)
Theorem load_kinematics_defaults (toolhead : Toolhead) (config : Config)
    (tq : option nat) (w w' : World) (k : Kinematics) :
  load_kinematics toolhead config tq None None w = (w', Ok k) ->
  exists cx cy cz,
    stepper_sections config !! "stepper_x" = Some cx
    /\ stepper_sections config !! "stepper_y" = Some cy
    /\ stepper_sections config !! "stepper_z" = Some cz
    /\ rails k = [setup_itersolve "corexy_stepper_alloc" "+" cx;
                  setup_itersolve "corexy_stepper_alloc" "-" cy;
                  setup_itersolve "cartesian_stepper_alloc" "z" cz]
    /\ axis k = [0; 1; 2] /\ dummy_axes k = [] /\ dummy_axes_names k = []
    /\ axis_names k = "XYZ" /\ axis_config k = [0; 1; 2].
Proof.
  unfold load_kinematics. intros H.
  apply init_ok_full in H
    as (a0 & names & r0 & r1 & r2 & w1 & w2 & w3 & vz & az
        & _ & _ & Ha0 & Hnames & Hrs & _ & _ & _ & _ & ->).
  simpl in Ha0. injection Ha0 as <-.
  vm_compute in Hnames. injection Hnames as <-.
  apply comprehension_Forall2 in Hrs.
  change (chars (lower (default "XYZ" None))) with ["x"; "y"; "z"] in Hrs.
  apply Forall2_cons_1 in Hrs as [Hx Hrs].
  apply Forall2_cons_1 in Hrs as [Hy Hrs].
  apply Forall2_cons_1 in Hrs as [Hz _].
  unfold LookupMultiRail in Hx, Hy, Hz.
  change ("stepper_" +:+ "x") with "stepper_x" in Hx.
  change ("stepper_" +:+ "y") with "stepper_y" in Hy.
  change ("stepper_" +:+ "z") with "stepper_z" in Hz.
  destruct (stepper_sections config !! "stepper_x") as [cx|]; [|discriminate].
  destruct (stepper_sections config !! "stepper_y") as [cy|]; [|discriminate].
  destruct (stepper_sections config !! "stepper_z") as [cz|]; [|discriminate].
  injection Hx as <-. injection Hy as <-. injection Hz as <-.
  exists cx, cy, cz.
  split; [reflexivity|]. split; [reflexivity|]. split; [reflexivity|].
  split; [reflexivity|]. split; [reflexivity|]. split; [reflexivity|].
  split; [reflexivity|]. split; reflexivity.
Qed.

Lemma load_kinematics_defaults_witness :
  exists k,
    (load_kinematics Sample.toolhead
       {| stepper_sections :=
            <["stepper_x" := Sample.rail_a]> (<["stepper_y" := Sample.rail_b]>
              (<["stepper_z" := Sample.rail_c]> ∅));
          opt_max_z_velocity := None; opt_max_z_accel := None |}
       None None None Sample.world).2 = Ok k
    /\ axis k = [0; 1; 2] /\ dummy_axes k = [] /\ axis_names k = "XYZ".
Proof.
  set (config := {| stepper_sections :=
            <["stepper_x" := Sample.rail_a]> (<["stepper_y" := Sample.rail_b]>
              (<["stepper_z" := Sample.rail_c]> ∅));
          opt_max_z_velocity := None; opt_max_z_accel := None |}).
  destruct (load_kinematics Sample.toolhead config None None None Sample.world)
    as [w' [k|e]] eqn:Hload; [|vm_compute in Hload; discriminate].
  destruct (load_kinematics_defaults _ _ _ _ _ _ Hload)
    as (cx & cy & cz & _ & _ & _ & _ & Hax & Hd & _ & Hn & _).
  exists k. split; [reflexivity|]. split; [exact Hax|]. split; [exact Hd | exact Hn].
Defined.
